(** * node-res: response helpers over the platform HTTP response

    A shallow embedding of [src/Response] (the static methods of the
    [Response] class) and of [src/utils] ([returnContentAndType]), with the
    properties of body classification, body preparation, sending and stream
    piping stated over it.

    Conventions of the embedding:
    - a JavaScript string is the list of its UTF-16 code units;
    - header names are ASCII tokens (the platform refuses any other name) and
      the platform stores a header under its lower-cased name;
    - the response object is a record of the status code, the header map and
      the log of [write]/[end] calls the library made on it;
    - functions of the platform and of imported packages whose result the
      library only passes along ([JSON.stringify], the [etag] package, the
      test for a [pipe] method) are the fields of a [Platform] class;
    - asynchronous behaviour (one [Response.stream] call and the events that
      reach its handlers) is a step function over an explicit closure state. *)

From Stdlib Require Import ZArith NArith List Ascii String Bool Lia DecimalString.
From stdpp Require Import base option list gmap strings.

Local Open Scope Z_scope.

(** ** JavaScript strings *)

(** A JavaScript string: the sequence of its UTF-16 code units. *)
Definition JsString : Type := list N.

(** A string literal of the source, all of whose characters are ASCII. *)
Definition js (s : string) : JsString :=
  List.map N_of_ascii (list_ascii_of_string s).

(** Truthiness of a string: every string but the empty one is truthy. *)
Definition str_truthy (s : JsString) : bool :=
  match s with
  | [] => false
  | _ :: _ => true
  end.

(** The code units the regular-expression class [\s] accepts: the WhiteSpace
    and LineTerminator code points of ECMAScript. *)
Definition isWhiteSpace (c : N) : bool :=
  (((9 <=? c) && (c <=? 13))
   || (c =? 32) || (c =? 160) || (c =? 5760)
   || ((8192 <=? c) && (c <=? 8202))
   || (c =? 8232) || (c =? 8233) || (c =? 8239) || (c =? 8287)
   || (c =? 12288) || (c =? 65279))%N.

(** The code unit of [<]. *)
Definition LT_SIGN : N := 60%N.

(** [/^\s*</.test(s)]: the matcher is anchored at the start of [s]; at each
    position it either takes [<] and succeeds, or consumes one white-space
    code unit and goes on. *)
Fixpoint html_re_test (s : JsString) : bool :=
  match s with
  | [] => false
  | c :: rest => (c =? LT_SIGN)%N || (isWhiteSpace c && html_re_test rest)
  end.

(** [s.replace(/c/g, r)] for a pattern made of the single code unit [c] and a
    replacement [r] without [$] patterns: every occurrence is replaced. *)
Fixpoint replace_all (c : N) (r : JsString) (s : JsString) : JsString :=
  match s with
  | [] => []
  | d :: rest =>
      if (d =? c)%N then r ++ replace_all c r rest else d :: replace_all c r rest
  end.

(** [name.toLowerCase()] on an ASCII header name. *)
Definition lower_ascii (a : ascii) : ascii :=
  let n := N_of_ascii a in
  if ((65 <=? n) && (n <=? 90))%N then ascii_of_N (n + 32) else a.

Fixpoint toLowerCase (s : string) : string :=
  match s with
  | EmptyString => EmptyString
  | String a rest => String (lower_ascii a) (toLowerCase rest)
  end.

(** ** Body values *)

(** A binary buffer: its bytes. *)
Definition Buffer : Type := list Byte.byte.

(** [String(n)] for a number. Numbers are modelled by the integers; the
    decimal numeral is what [String] gives for the integers that are numbers
    of the platform up to 2^53 - 1 in absolute value (from 10^21 on [String]
    switches to exponent notation). Fractions, NaN and the infinities are not
    numbers of the model. *)
Definition String_of_number (n : Z) : JsString :=
  js (NilZero.string_of_int (Z.to_int n)).

(** [String(b)] for a boolean. *)
Definition String_of_boolean (b : bool) : JsString :=
  if b then js "true" else js "false".

(** The values a body can be, by the tests the library runs on them:
    [typeof], [Buffer.isBuffer], comparison with [null] and [undefined].
    [BObject] stands for every other value whose [typeof] is ['object']
    (plain objects, arrays, streams); functions and symbols are not bodies. *)
Inductive Body (O : Type) : Type :=
| BUndefined
| BNull
| BString (s : JsString)
| BBuffer (b : Buffer)
| BNumber (n : Z)
| BBoolean (b : bool)
| BObject (o : O).

Arguments BUndefined {O}.
Arguments BNull {O}.
Arguments BString {O} s.
Arguments BBuffer {O} b.
Arguments BNumber {O} n.
Arguments BBoolean {O} b.
Arguments BObject {O} o.

(** What is written to the response: a string or a buffer. *)
Inductive Chunk : Type :=
| CStr (s : JsString)
| CBuf (b : Buffer).

(** Truthiness of a chunk: a buffer is an object, hence truthy. *)
Definition chunk_truthy (c : Chunk) : bool :=
  match c with
  | CStr s => str_truthy s
  | CBuf _ => true
  end.

(** Number of bytes of the UTF-8 encoding of a string; an unpaired surrogate
    is encoded as the three bytes of U+FFFD. *)
Fixpoint utf8_length (s : JsString) : Z :=
  match s with
  | [] => 0
  | c :: rest =>
      if (c <? 128)%N then 1 + utf8_length rest
      else if (c <? 2048)%N then 2 + utf8_length rest
      else if ((55296 <=? c) && (c <=? 56319))%N then
        match rest with
        | d :: rest' =>
            if ((56320 <=? d) && (d <=? 57343))%N then 4 + utf8_length rest'
            else 3 + utf8_length rest
        | [] => 3
        end
      else 3 + utf8_length rest
  end.

(** [Buffer.byteLength(chunk)]. *)
Definition byteLength (c : Chunk) : Z :=
  match c with
  | CStr s => utf8_length s
  | CBuf b => Z.of_nat (length b)
  end.

(** An error object, by the two properties the library reads. *)
Record JsError : Type := {
  code : option JsString;
  message : JsString
}.

(** The platform and the imported packages, as far as the library only hands
    their results on. [JSON_stringify] yields [None] where [JSON.stringify]
    yields [undefined]. *)
Class Platform : Type := {
  JsObject : Type;
  pipe_is_function : JsObject -> bool;
  JSON_stringify : Body JsObject -> option JsString;
  etag : Chunk -> JsString;
  (* the TypeError the engine raises when a property of null or undefined
     is read *)
  property_of_nullish : JsError
}.

(** ** The body classifier ([src/utils]) *)

Module Utils.
Section WithPlatform.
Context `{Platform}.

(** The object [{ body, type }] the classifier returns; a field that is
    [undefined] or missing is [None]. *)
Record ContentAndType : Type := {
  body : option Chunk;
  type : option JsString
}.

Definition returnContentAndType (b : Body JsObject) : ContentAndType :=
  match b with
  | BString s =>
      (* typeof (body) === 'string' *)
      {| body := Some (CStr s);
         type := Some (if html_re_test s then js "text/html" else js "text/plain") |}
  | BBuffer buf =>
      (* Buffer.isBuffer(body) *)
      {| body := Some (CBuf buf); type := Some (js "application/octet-stream") |}
  | BNumber n =>
      {| body := Some (CStr (String_of_number n)); type := Some (js "text/plain") |}
  | BBoolean v =>
      {| body := Some (CStr (String_of_boolean v)); type := Some (js "text/plain") |}
  | BNull | BObject _ =>
      (* typeof (body) === 'object', which holds of null too *)
      {| body := CStr <$> JSON_stringify b; type := Some (js "application/json") |}
  | BUndefined =>
      (* { body } *)
      {| body := None; type := None |}
  end.

End WithPlatform.
End Utils.

(** ** The response and request objects of the platform *)

(** A header value: [string | number | string[]]. *)
Inductive HeaderValue : Type :=
| HStr (s : JsString)
| HNum (n : Z)
| HArr (l : list JsString).

(** The calls that put the response on the wire: [res.write(chunk)] and
    [res.end(payload)], the payload being optional. *)
Inductive OutOp : Type :=
| OWrite (c : Chunk)
| OEnd (payload : option Chunk).

(** The response: its status code, its headers under their lower-cased names,
    and the [write] and [end] calls made on it so far, oldest first. *)
Record ServerResponse : Type := {
  statusCode : Z;
  headers : gmap string HeaderValue;
  output : list OutOp
}.

Record IncomingMessage : Type := {
  method : string
}.

(** Truthiness of what [res.getHeader(key)] returns: [undefined], the empty
    string and the number 0 are falsy; an array is truthy. *)
Definition header_truthy (v : option HeaderValue) : bool :=
  match v with
  | None => false
  | Some (HStr s) => str_truthy s
  | Some (HNum n) => negb (n =? 0)
  | Some (HArr _) => true
  end.

(** Modelled from the spec: the status table [src/methods] is not among the
    sources; the spec names its entries "no content" and "not modified", and
    the comment in [Response.prepare] gives their codes, 204 and 304. *)
Definition methods_noContent : Z := 204.
Definition methods_notModified : Z := 304.

(** ** Errors, promises and the closure of one stream-piping call *)

Inductive PromiseState : Type :=
| Pending
| Fulfilled
| Rejected (error : JsError).

(** The state one call of [Response.stream] creates: the promise it returns,
    the local [finished] flag, whether the handlers are attached and
    [body.pipe(res)] has been called, whether the listener given to
    [onFinished] is still to be invoked (the package invokes it once), and the
    number of [destroy(body)] calls made so far. *)
Record Piping : Type := {
  promise : PromiseState;
  finished : bool;
  piped : bool;
  onFinished_armed : bool;
  destroys : nat
}.

(** What can reach the handlers of a piping call: the stream's [data], [end]
    and [error] events and the completion of the response. *)
Inductive Event : Type :=
| StreamData (c : Chunk)
| StreamEnd
| StreamError (e : JsError)
| ResponseFinished.

(** ** The [Response] class ([src/Response]) *)

Module Response.
Section WithPlatform.
Context `{Platform}.

(** Assignments to the fields of the response object. *)
Definition set_statusCode (res : ServerResponse) (c : Z) : ServerResponse :=
  {| statusCode := c; headers := headers res; output := output res |}.

Definition set_headers (res : ServerResponse) (h : gmap string HeaderValue)
  : ServerResponse :=
  {| statusCode := statusCode res; headers := h; output := output res |}.

Definition log_output (res : ServerResponse) (op : OutOp) : ServerResponse :=
  {| statusCode := statusCode res; headers := headers res;
     output := output res ++ [op] |}.

(** [res.getHeader(key)]; [None] is [undefined]. *)
Definition getHeader (res : ServerResponse) (key : string) : option HeaderValue :=
  headers res !! toLowerCase key.

(** [res.setHeader(key, values)]. On an array [value.map(String)] maps
    strings to themselves. The response is taken to accept the call: [key] is
    a valid header name and the head of the response has not been flushed by
    an earlier write, after which the platform raises instead. *)
Definition header (res : ServerResponse) (key : string) (value : HeaderValue)
  : ServerResponse :=
  set_headers res (<[toLowerCase key := value]> (headers res)).

Definition status (res : ServerResponse) (c : Z) : ServerResponse :=
  set_statusCode res c.

Definition safeHeader (res : ServerResponse) (key : string) (value : HeaderValue)
  : ServerResponse :=
  if negb (header_truthy (getHeader res key)) then header res key value else res.

Definition removeHeader (res : ServerResponse) (key : string) : ServerResponse :=
  set_headers res (delete (toLowerCase key) (headers res)).

Definition write (res : ServerResponse) (c : Chunk) : ServerResponse :=
  log_output res (OWrite c).

Definition end_ (res : ServerResponse) (payload : option Chunk) : ServerResponse :=
  log_output res (OEnd payload).

(** [Response.etag]: the [etag] on the right is the imported package. *)
Definition etag (res : ServerResponse) (chunk : Chunk) : ServerResponse :=
  header res "ETag" (HStr (etag chunk)).

(** [Response.prepare]. [res] is the platform's [ServerResponse], whose
    [getHeaders] is a function, so that [headers] below is [res.getHeaders()]:
    the header map under lower-cased names. The result pairs the response
    after the call with the returned chunk ([None]: [null] or [undefined]). *)
Definition prepare (res : ServerResponse) (body : Body JsObject)
  : ServerResponse * option Chunk :=
  match body with
  | BNull | BUndefined =>
      let res := status res methods_noContent in
      let res := removeHeader res "Content-Type" in
      let res := removeHeader res "Content-Length" in
      let res := removeHeader res "Transfer-Encoding" in
      (res, None)
  | _ =>
      let ct := Utils.returnContentAndType body in
      let chunk := Utils.body ct in
      let type := Utils.type ct in
      if (statusCode res =? methods_noContent) || (statusCode res =? methods_notModified)
      then
        let res := removeHeader res "Content-Type" in
        let res := removeHeader res "Content-Length" in
        let res := removeHeader res "Transfer-Encoding" in
        (res, chunk)
      else
        let headers0 := headers res in
        let res :=
          match type with
          | Some t =>
              if str_truthy t && negb (header_truthy (headers0 !! "content-type"))
              then header res "Content-Type" (HStr (t ++ js "; charset=utf-8"))
              else res
          | None => res
          end in
        let res :=
          match chunk with
          | Some c =>
              if chunk_truthy c && negb (header_truthy (headers0 !! "content-length"))
              then header res "Content-Length" (HNum (byteLength c))
              else res
          | None => res
          end in
        (res, chunk)
  end.

(** [Response.prepareJsonp]. The second component is [None] when
    [JSON.stringify(body)] is [undefined], on which [.replace] raises a
    [TypeError]; the two headers have been set by then. *)
Definition prepareJsonp (res : ServerResponse) (body : Body JsObject)
    (callbackFn : JsString) : ServerResponse * option JsString :=
  let res := header res "X-Content-Type-Options" (HStr (js "nosniff")) in
  let res := safeHeader res "Content-Type" (HStr (js "text/javascript; charset=utf-8")) in
  match JSON_stringify body with
  | None => (res, None)
  | Some json =>
      let parsedBody :=
        replace_all 8233 (js "\u2029") (replace_all 8232 (js "\u2028") json) in
      (res,
       Some (js "/**/ typeof " ++ callbackFn ++ js " === 'function' && "
               ++ callbackFn ++ js "(" ++ parsedBody ++ js ");"))
  end.

(** ** Stream piping *)

(** [body] is truthy. *)
Definition body_truthy (body : Body JsObject) : bool :=
  match body with
  | BUndefined | BNull => false
  | BString s => str_truthy s
  | BNumber n => negb (n =? 0)
  | BBoolean b => b
  | BBuffer _ | BObject _ => true
  end.

(** [typeof (body.pipe) === 'function'], for a body other than [null] and
    [undefined]: strings, numbers, booleans and buffers have no [pipe]. *)
Definition has_pipe (body : Body JsObject) : bool :=
  match body with
  | BObject o => pipe_is_function o
  | _ => false
  end.

(** [new Error('Body is not a valid stream')]. *)
Definition invalid_stream_error : JsError :=
  {| code := None; message := js "Body is not a valid stream" |}.

(** A promise rejected inside the executor before anything was attached. *)
Definition rejected_at_once (e : JsError) : Piping :=
  {| promise := Rejected e; finished := false; piped := false;
     onFinished_armed := false; destroys := 0 |}.

(** [resolve] and [reject] of the promise: they act on a pending promise only. *)
Definition resolve (p : Piping) : Piping :=
  match promise p with
  | Pending =>
      {| promise := Fulfilled; finished := finished p; piped := piped p;
         onFinished_armed := onFinished_armed p; destroys := destroys p |}
  | _ => p
  end.

Definition reject (p : Piping) (e : JsError) : Piping :=
  match promise p with
  | Pending =>
      {| promise := Rejected e; finished := finished p; piped := piped p;
         onFinished_armed := onFinished_armed p; destroys := destroys p |}
  | _ => p
  end.

(** [finished = true]. *)
Definition mark_finished (p : Piping) : Piping :=
  {| promise := promise p; finished := true; piped := piped p;
     onFinished_armed := onFinished_armed p; destroys := destroys p |}.

(** [destroy(body)]. *)
Definition destroy (p : Piping) : Piping :=
  {| promise := promise p; finished := finished p; piped := piped p;
     onFinished_armed := onFinished_armed p; destroys := S (destroys p) |}.

(** The listener of [body.on('error', ...)]. *)
Definition stream_on_error (error : JsError) (p : Piping) : Piping :=
  if finished p then p
  else
    let p := mark_finished p in
    let p := destroy p in
    reject p error.

(** The listener of [body.on('end', resolve)]. *)
Definition stream_on_end (p : Piping) : Piping := resolve p.

(** The listener given to [onFinished(res, ...)]. *)
Definition stream_on_finished (p : Piping) : Piping :=
  let p := mark_finished p in
  destroy p.

(** [Response.stream]: the response, which the call itself leaves as it is,
    and the closure state behind the promise it returns. Reading [body.pipe]
    of [null] or [undefined] raises inside the executor, which rejects the
    promise with that error. *)
Definition stream (res : ServerResponse) (body : Body JsObject)
  : ServerResponse * Piping :=
  match body with
  | BNull | BUndefined => (res, rejected_at_once property_of_nullish)
  | _ =>
      if negb (has_pipe body) then (res, rejected_at_once invalid_stream_error)
      else
        (res,
         {| promise := Pending; finished := false; piped := true;
            onFinished_armed := true; destroys := 0 |})
  end.

(** [Response.send]. A stream body leaves a piping call in flight, whose
    promise carries the [catch] handler [send_catch] below. *)
Definition send (req : IncomingMessage) (res : ServerResponse)
    (body : Body JsObject) (generateEtag : bool)
  : ServerResponse * option Piping :=
  if body_truthy body && has_pipe body then
    let '(res, p) := stream res body in
    (res, Some p)
  else
    let '(res, chunk) := prepare res body in
    match chunk with
    | None => (end_ res None, None)
    | Some c =>
        if String.eqb (method req) "HEAD" then (end_ res None, None)
        else
          let res := if generateEtag then etag res c else res in
          (end_ res (Some c), None)
    end.

(** The handler [send] gives to [.catch]. The message of an error is a
    string, so the inner [send] starts no piping call of its own. *)
Definition send_catch (req : IncomingMessage) (res : ServerResponse)
    (generateEtag : bool) (error : JsError) : ServerResponse :=
  let res :=
    status res (if bool_decide (code error = Some (js "ENOENT")) then 404 else 500) in
  fst (send req res (BString (message error)) generateEtag).

Definition json (req : IncomingMessage) (res : ServerResponse)
    (body : Body JsObject) (generateEtag : bool)
  : ServerResponse * option Piping :=
  let res := safeHeader res "Content-Type" (HStr (js "application/json; charset=utf-8")) in
  send req res body generateEtag.

(** [Response.jsonp]. [callbackFn] is [None] when the caller leaves the
    argument out, which stands for ['callback']. The second component tells
    whether the call returned: it is [false] when [prepareJsonp] raised, in
    which case [send] was not called. The text [prepareJsonp] returns is a
    string, so [send] starts no piping call. *)
Definition jsonp (req : IncomingMessage) (res : ServerResponse)
    (body : Body JsObject) (callbackFn : option JsString) (generateEtag : bool)
  : ServerResponse * bool :=
  let callbackFn := default (js "callback") callbackFn in
  match prepareJsonp res body callbackFn with
  | (res, Some text) => (fst (send req res (BString text) generateEtag), true)
  | (res, None) => (res, false)
  end.

(** [Array.prototype.concat] on an array of strings: an array argument
    contributes its elements, any other argument itself. A number, which
    [Response.header] would turn into a string, is given as that string. *)
Definition concat (l : list JsString) (value : HeaderValue) : list JsString :=
  match value with
  | HArr l' => l ++ l'
  | HStr s => l ++ [s]
  | HNum n => l ++ [String_of_number n]
  end.

(** [Response.append]. *)
Definition append (res : ServerResponse) (key : string) (value : HeaderValue)
  : ServerResponse :=
  let previousValue := getHeader res key in
  let value :=
    match value with
    | HNum n => HStr (String_of_number n)
    | _ => value
    end in
  let headers :=
    match previousValue with
    | Some prev =>
        if header_truthy previousValue then
          match prev with
          | HArr l => HArr (concat l value)
          | HStr s => HArr (concat [s] value)
          | HNum n => HArr (concat [String_of_number n] value)
          end
        else value
    | None => value
    end in
  header res key headers.

(** [Response.location]. *)
Definition location (res : ServerResponse) (url : JsString) : ServerResponse :=
  header res "Location" (HStr url).

(** [Response.redirect]. [status0] is [None] when the caller leaves the
    status out, which stands for 302. *)
Definition redirect (req : IncomingMessage) (res : ServerResponse)
    (url : JsString) (status0 : option Z) : ServerResponse * option Piping :=
  let status0 := default 302 status0 in
  let body := BString [] in
  let res := status res status0 in
  let res := location res url in
  send req res body true.

(** The methods [Object.keys(methods).map] adds to the class, one for each
    entry of the status table: [code] is [methods[method]]. The table itself
    is not among the sources, so the code is an argument. *)
Definition descriptive_method (code : Z) (req : IncomingMessage)
    (res : ServerResponse) (body : Body JsObject) : ServerResponse * option Piping :=
  let res := status res code in
  send req res body true.

End WithPlatform.
End Response.

(** ** Events reaching a piping call *)

Section EventLoop.
Context `{Platform}.

(** One event reaching the handlers [Response.stream] attached and the pipe
    [body.pipe(res)] set up: the pipe hands each chunk of data to [res.write]
    and ends the response when the stream ends; the listeners of the library
    run on [error], [end] and the completion of the response, the last one
    once. A call that attached nothing reacts to nothing. *)
Definition handle (ev : Event) (st : ServerResponse * Piping)
  : ServerResponse * Piping :=
  let '(res, p) := st in
  if negb (piped p) then st
  else
    match ev with
    | StreamData c => (Response.write res c, p)
    | StreamEnd => (Response.end_ res None, Response.stream_on_end p)
    | StreamError e => (res, Response.stream_on_error e p)
    | ResponseFinished =>
        if onFinished_armed p then
          (res,
           Response.stream_on_finished
             {| promise := promise p; finished := finished p; piped := piped p;
                onFinished_armed := false; destroys := destroys p |})
        else st
    end.

(** The events of a list, in order. *)
Definition run (evs : list Event) (st : ServerResponse * Piping)
  : ServerResponse * Piping :=
  fold_left (fun st ev => handle ev st) evs st.

(** Whether an event settles the promise. *)
Definition settles (ev : Event) (st : ServerResponse * Piping) : bool :=
  match promise (snd st), promise (snd (handle ev st)) with
  | Pending, Fulfilled | Pending, Rejected _ => true
  | _, _ => false
  end.

(** The settlements the caller of [Response.stream] observes along the
    events: each one with the event that caused it. *)
Fixpoint settlements (evs : list Event) (st : ServerResponse * Piping)
  : list (Event * PromiseState) :=
  match evs with
  | [] => []
  | ev :: rest =>
      let st' := handle ev st in
      (if settles ev st then [(ev, promise (snd st'))] else [])
        ++ settlements rest st'
  end.

(** One event reaching a [Response.send] call that was given a stream: the
    handlers of the piping call run, and if the promise is rejected by them
    the [catch] handler of [send] runs on the response. *)
Definition deliver (req : IncomingMessage) (generateEtag : bool) (ev : Event)
    (st : ServerResponse * Piping) : ServerResponse * Piping :=
  let st' := handle ev st in
  match promise (snd st), promise (snd st') with
  | Pending, Rejected error =>
      (Response.send_catch req (fst st') generateEtag error, snd st')
  | _, _ => st'
  end.

Definition deliver_all (req : IncomingMessage) (generateEtag : bool)
    (evs : list Event) (st : ServerResponse * Piping) : ServerResponse * Piping :=
  fold_left (fun st ev => deliver req generateEtag ev st) evs st.

(** The response after a [Response.send] call and the events that reach the
    piping call it may have left in flight. *)
Definition send_and_run (req : IncomingMessage) (res : ServerResponse)
    (body : Body JsObject) (generateEtag : bool) (evs : list Event)
  : ServerResponse :=
  match Response.send req res body generateEtag with
  | (res', Some p) => fst (deliver_all req generateEtag evs (res', p))
  | (res', None) => res'
  end.

End EventLoop.

(** ** A platform to run the definitions on

    Objects are told apart by whether they are readable streams; every object
    serializes to [{}], a string to itself between double quotes (the strings
    of the examples need no escape), [undefined] to nothing. *)

Definition demo_json (b : Body bool) : option JsString :=
  match b with
  | BUndefined => None
  | BNull => Some (js "null")
  | BString s => Some (34%N :: s ++ [34%N])
  | BBuffer _ => Some (js "{}")
  | BNumber n => Some (String_of_number n)
  | BBoolean v => Some (String_of_boolean v)
  | BObject _ => Some (js "{}")
  end.

Definition demo_platform : Platform :=
  {| JsObject := bool;
     pipe_is_function := fun o => o;
     JSON_stringify := demo_json;
     etag := fun c => js "W/" ++ String_of_number (byteLength c);
     property_of_nullish :=
       {| code := None; message := js "Cannot read property 'pipe' of undefined" |} |}.

(** The response a server hands to its listener: status 200, no header,
    nothing written. *)
Definition fresh_response : ServerResponse :=
  {| statusCode := 200; headers := ∅; output := [] |}.

Definition GET : IncomingMessage := {| method := "GET" |}.
Definition HEAD : IncomingMessage := {| method := "HEAD" |}.

(** The error of opening a file that does not exist. *)
Definition enoent : JsError :=
  {| code := Some (js "ENOENT");
     message := js "ENOENT: no such file or directory, open 'foo.txt'" |}.

(** ** The spec's wording of the string rule *)

(** The string begins with [<] after optional leading white space. *)
Definition begins_with_lt_after_whitespace (s : JsString) : Prop :=
  exists ws rest,
    Forall (fun c => isWhiteSpace c = true) ws /\ s = ws ++ LT_SIGN :: rest.

(** ** Auxiliary notions of the statements *)

(** Content bytes a list of output calls carries. *)
Definition op_bytes (op : OutOp) : Z :=
  match op with
  | OWrite c => byteLength c
  | OEnd (Some c) => byteLength c
  | OEnd None => 0
  end.

Definition content_bytes (out : list OutOp) : Z :=
  fold_right (fun op n => op_bytes op + n) 0 out.

(** The header map without the three headers of a body. *)
Definition without_body_headers (h : gmap string HeaderValue)
  : gmap string HeaderValue :=
  delete "transfer-encoding" (delete "content-length" (delete "content-type" h)).

(** Whether the status code is one of the two that carry no body. *)
Definition bodiless_status (res : ServerResponse) : bool :=
  (statusCode res =? methods_noContent) || (statusCode res =? methods_notModified).

(** A response whose Content-Length is the number 0 and whose Content-Type
    is the empty string. *)
Definition falsy_headers_response : ServerResponse :=
  {| statusCode := 200;
     headers := <["content-length" := HNum 0]> (<["content-type" := HStr []]> ∅);
     output := [] |}.

(** What holds of the closure state of a piping call that attached its
    handlers, after any events: while [finished] is unset nothing was
    destroyed and the completion listener is pending; while that listener is
    pending at most one [destroy] happened; once it has run, [finished] is
    set and one or two [destroy] calls happened. *)
Definition piping_inv (p : Piping) : Prop :=
  piped p = true
  /\ (finished p = false -> destroys p = 0%nat /\ onFinished_armed p = true)
  /\ (onFinished_armed p = true -> (destroys p <= 1)%nat)
  /\ (onFinished_armed p = false -> finished p = true /\ (1 <= destroys p <= 2)%nat).

(** The response after the pipe wrote the given chunks to it. *)
Definition written (res : ServerResponse) (chunks : list Chunk) : ServerResponse :=
  {| statusCode := statusCode res; headers := headers res;
     output := output res ++ List.map OWrite chunks |}.

(** The JSON text with the line and paragraph separators escaped, as
    [prepareJsonp] computes it. *)
Definition escape_separators (json : JsString) : JsString :=
  replace_all 8233 (js "\u2029") (replace_all 8232 (js "\u2028") json).

(** The strings a header value stands for, in order: a header that is not
    set stands for none. *)
Definition header_items (v : option HeaderValue) : list JsString :=
  match v with
  | None => []
  | Some (HStr s) => [s]
  | Some (HNum n) => [String_of_number n]
  | Some (HArr l) => l
  end.

(** The text of the call of [callbackFn] on [arg], guarded by the test that
    [callbackFn] is a function, as [prepareJsonp] builds it. *)
Definition guarded_call (callbackFn arg : JsString) : JsString :=
  js "/**/ typeof " ++ callbackFn ++ js " === 'function' && "
    ++ callbackFn ++ js "(" ++ arg ++ js ");".

(** The integers every one of which is a number of the platform, and on which
    [String_of_number] is the platform's [String]: those up to 2^53 - 1 in
    absolute value. *)
Definition MAX_SAFE_INTEGER : Z := 9007199254740991.

Definition safe_integer (n : Z) : Prop :=
  - MAX_SAFE_INTEGER <= n <= MAX_SAFE_INTEGER.

Definition safe_value (v : option HeaderValue) : Prop :=
  match v with
  | Some (HNum n) => safe_integer n
  | _ => True
  end.

(** An output call other than an [end] that carries a payload. *)
Definition without_end_payload (op : OutOp) : bool :=
  match op with
  | OEnd (Some _) => false
  | _ => true
  end.

(** The content bytes the platform puts on the wire for the calls made on
    the response to a request. The response to a HEAD request has no body:
    the platform ignores the payload of every [write] and [end] call made on
    it. For any other request the payloads are sent as they are. *)
Definition wire_bytes (req : IncomingMessage) (out : list OutOp) : Z :=
  if String.eqb (method req) "HEAD" then 0 else content_bytes out.

(** The body is [null] or [undefined]. *)
Definition nullish {O : Type} (body : Body O) : bool :=
  match body with
  | BNull | BUndefined => true
  | _ => false
  end.

(** The number of [destroy] calls a list of events causes on a piping call
    whose completion listener is pending: one for the first completion of the
    response, and one for a stream error that precedes it when [finished] is
    not yet set. *)
Fixpoint expected_destroys (fin : bool) (evs : list Event) : nat :=
  match evs with
  | [] => 0
  | ResponseFinished :: _ => 1
  | StreamError _ :: rest =>
      if fin then expected_destroys fin rest else S (expected_destroys true rest)
  | _ :: rest => expected_destroys fin rest
  end.

(** * Properties *)

(** ** The classifier on strings *)

Lemma LT_SIGN_not_whitespace : isWhiteSpace LT_SIGN = false.
Proof. reflexivity. Qed.

Lemma html_re_test_spec (s : JsString) :
  html_re_test s = true <-> begins_with_lt_after_whitespace s.
Proof.
  unfold begins_with_lt_after_whitespace. split.
  - induction s as [|c s IH]; simpl; [discriminate|].
    intros Hm. apply orb_true_iff in Hm as [Hlt | Hws].
    + apply N.eqb_eq in Hlt. subst c. exists [], s. split; [constructor | reflexivity].
    + apply andb_true_iff in Hws as [Hc Hrest].
      destruct (IH Hrest) as (ws & rest & Hall & ->).
      exists (c :: ws), rest. split; [constructor; assumption | reflexivity].
  - intros (ws & rest & Hall & ->).
    induction Hall as [|c ws Hc Hall IH]; cbn [app html_re_test].
    + rewrite N.eqb_refl. reflexivity.
    + rewrite Hc, IH. apply orb_true_r.
Qed.

Section Classifier.
Context `{Platform}.

(** C7. For every string body the classifier returns the string unchanged;
    the inferred media type is [text/html] exactly when the string begins
    with [<] after optional leading white space, and [text/plain] otherwise. *)
Theorem returnContentAndType_string (s : JsString) :
  Utils.body (Utils.returnContentAndType (BString s)) = Some (CStr s)
  /\ (Utils.type (Utils.returnContentAndType (BString s)) = Some (js "text/html")
      <-> begins_with_lt_after_whitespace s)
  /\ (Utils.type (Utils.returnContentAndType (BString s)) = Some (js "text/plain")
      <-> ~ begins_with_lt_after_whitespace s).
Proof.
  simpl. split; [reflexivity|].
  rewrite <- html_re_test_spec.
  destruct (html_re_test s) eqn:E; split; split; intros Hx;
    try reflexivity; try discriminate; congruence.
Qed.

End Classifier.

Example classify_html :
  Utils.returnContentAndType (H := demo_platform) (BString (js "
  <h1> hello </h1>"))
  = {| Utils.body := Some (CStr (js "
  <h1> hello </h1>")); Utils.type := Some (js "text/html") |}.
Proof. reflexivity. Qed.

Example classify_plain :
  Utils.returnContentAndType (H := demo_platform) (BString (js "hello <world>"))
  = {| Utils.body := Some (CStr (js "hello <world>"));
       Utils.type := Some (js "text/plain") |}.
Proof. reflexivity. Qed.

(** ** Headers *)

Lemma getHeader_header (res : ServerResponse) (key : string) (value : HeaderValue) :
  Response.getHeader (Response.header res key value) key = Some value.
Proof. unfold Response.getHeader, Response.header. simpl. apply lookup_insert_eq. Qed.

Lemma headers_header (res : ServerResponse) (key : string) (value : HeaderValue) :
  headers (Response.header res key value) = <[toLowerCase key := value]> (headers res).
Proof. reflexivity. Qed.

Lemma lower_content_type : toLowerCase "Content-Type" = "content-type".
Proof. reflexivity. Qed.

Lemma lower_content_length : toLowerCase "Content-Length" = "content-length".
Proof. reflexivity. Qed.

Lemma lower_etag : toLowerCase "ETag" = "etag".
Proof. reflexivity. Qed.

(** A header holding a truthy value is left alone by [safeHeader]. *)
Lemma safeHeader_truthy (res : ServerResponse) (key : string) (value : HeaderValue) :
  header_truthy (Response.getHeader res key) = true ->
  Response.safeHeader res key value = res.
Proof. unfold Response.safeHeader. intros ->. reflexivity. Qed.

(** A header that is absent is set by [safeHeader]. *)
Lemma safeHeader_absent (res : ServerResponse) (key : string) (value : HeaderValue) :
  Response.getHeader res key = None ->
  Response.safeHeader res key value = Response.header res key value.
Proof. unfold Response.safeHeader. intros ->. reflexivity. Qed.

(** C6, evaluated where it fails. The response holds [Content-Length: 0],
    set with [Response.header]; [safeHeader] on the same key replaces the 0
    by the new value, because it tests the truthiness of the existing value
    and not its existence. The same happens to a header holding the empty
    string. *)
Theorem safeHeader_overwrites_falsy_value :
  let res := Response.header fresh_response "Content-Length" (HNum 0) in
  let res' := Response.header fresh_response "X-Tag" (HStr []) in
  Response.getHeader res "Content-Length" = Some (HNum 0)
  /\ Response.getHeader (Response.safeHeader res "Content-Length" (HNum 5))
       "Content-Length" = Some (HNum 5)
  /\ Response.getHeader res' "X-Tag" = Some (HStr [])
  /\ Response.getHeader (Response.safeHeader res' "X-Tag" (HStr (js "v")))
       "X-Tag" = Some (HStr (js "v")).
Proof. vm_compute. repeat split. Qed.

(** ** Body preparation *)

Lemma without_body_headers_lookup (h : gmap string HeaderValue) (k : string) :
  without_body_headers h !! k =
    if bool_decide (k = "content-type" \/ k = "content-length" \/ k = "transfer-encoding")
    then None else h !! k.
Proof.
  unfold without_body_headers. case_bool_decide as Hk.
  - destruct Hk as [-> | [-> | ->]].
    + rewrite lookup_delete_ne, lookup_delete_ne by discriminate. apply lookup_delete_eq.
    + rewrite lookup_delete_ne by discriminate. apply lookup_delete_eq.
    + apply lookup_delete_eq.
  - rewrite !lookup_delete_ne; [reflexivity | | |]; intros <-; apply Hk; auto.
Qed.

Section Prepare.
Context `{Platform}.

(** [prepare] on [null] and [undefined]. *)
Lemma prepare_nullish (res : ServerResponse) (body : Body JsObject) :
  body = BNull \/ body = BUndefined ->
  Response.prepare res body =
    ({| statusCode := 204; headers := without_body_headers (headers res);
        output := output res |}, None).
Proof. intros [-> | ->]; reflexivity. Qed.

(** [prepare] on any other body, by cases on the status code. *)
Lemma prepare_non_nullish (res : ServerResponse) (body : Body JsObject) :
  body <> BNull -> body <> BUndefined ->
  let ct := Utils.returnContentAndType body in
  Response.prepare res body =
    if bodiless_status res then
      ({| statusCode := statusCode res;
          headers := without_body_headers (headers res);
          output := output res |}, Utils.body ct)
    else
      let res1 :=
        match Utils.type ct with
        | Some t =>
            if str_truthy t && negb (header_truthy (headers res !! "content-type"))
            then Response.header res "Content-Type" (HStr (t ++ js "; charset=utf-8"))
            else res
        | None => res
        end in
      let res2 :=
        match Utils.body ct with
        | Some c =>
            if chunk_truthy c && negb (header_truthy (headers res !! "content-length"))
            then Response.header res1 "Content-Length" (HNum (byteLength c))
            else res1
        | None => res1
        end in
      (res2, Utils.body ct).
Proof.
  intros Hn Hu. unfold bodiless_status.
  destruct body; try congruence; reflexivity.
Qed.

(** [prepare] never touches the log of output calls, nor a header other than
    the three of the body. *)
Lemma prepare_output (res : ServerResponse) (body : Body JsObject) :
  output (fst (Response.prepare res body)) = output res.
Proof.
  destruct body; try reflexivity; unfold Response.prepare;
    repeat match goal with
           | |- context [if ?b then _ else _] => destruct b
           | |- context [match ?o with Some _ => _ | None => _ end] => destruct o
           end; reflexivity.
Qed.

Lemma prepare_other_headers (res : ServerResponse) (body : Body JsObject) (k : string) :
  k <> "content-type" -> k <> "content-length" -> k <> "transfer-encoding" ->
  headers (fst (Response.prepare res body)) !! k = headers res !! k.
Proof.
  intros H1 H2 H3.
  assert (Hd : without_body_headers (headers res) !! k = headers res !! k).
  { rewrite without_body_headers_lookup. case_bool_decide as Hk; [|reflexivity].
    destruct Hk as [? | [? | ?]]; contradiction. }
  destruct body; try exact Hd; unfold Response.prepare;
    repeat match goal with
           | |- context [if ?b then _ else _] => destruct b
           | |- context [match ?o with Some _ => _ | None => _ end] => destruct o
           end;
    try exact Hd; try reflexivity; simpl;
    rewrite ?lookup_insert_ne by (intros E; symmetry in E; contradiction);
    reflexivity.
Qed.

Lemma prepare_statusCode (res : ServerResponse) (body : Body JsObject) :
  body <> BNull -> body <> BUndefined ->
  statusCode (fst (Response.prepare res body)) = statusCode res.
Proof.
  intros Hn Hu. rewrite (prepare_non_nullish res body Hn Hu).
  destruct (bodiless_status res); [reflexivity|]. cbn zeta.
  destruct (Utils.type (Utils.returnContentAndType body)) as [t|],
           (Utils.body (Utils.returnContentAndType body)) as [c|]; cbn [fst];
    repeat match goal with
           | |- context [if ?b then _ else _] => destruct b
           end; reflexivity.
Qed.

End Prepare.

Section PrepareClaims.
Context `{Platform}.

(** C5, as amended. For every body other than [null] and [undefined],
    [prepare] returns the content the classifier serialized and leaves the
    status code alone. When the status code is 204 or 304 it removes the
    Content-Type, Content-Length and Transfer-Encoding headers and sets none.
    Otherwise it sets Content-Type only if the header is unset or holds a
    falsy value (the empty string, the number 0), to the classifier's type
    with [; charset=utf-8] appended, and Content-Length only if that header
    is unset or holds a falsy value, to the byte length of the content; a
    header holding a truthy value is kept, and no other header changes. *)
Theorem prepare_sets_headers_unless_truthy (res : ServerResponse) (body : Body JsObject) :
  body <> BNull -> body <> BUndefined ->
  let ct := Utils.returnContentAndType body in
  let res' := fst (Response.prepare res body) in
  snd (Response.prepare res body) = Utils.body ct
  /\ statusCode res' = statusCode res
  /\ (bodiless_status res = true ->
      headers res' = without_body_headers (headers res))
  /\ (bodiless_status res = false ->
      (header_truthy (headers res !! "content-type") = true ->
       headers res' !! "content-type" = headers res !! "content-type")
      /\ (header_truthy (headers res !! "content-length") = true ->
          headers res' !! "content-length" = headers res !! "content-length")
      /\ (header_truthy (headers res !! "content-type") = false ->
          headers res' !! "content-type" =
            match Utils.type ct with
            | Some t =>
                if str_truthy t then Some (HStr (t ++ js "; charset=utf-8"))
                else headers res !! "content-type"
            | None => headers res !! "content-type"
            end)
      /\ (header_truthy (headers res !! "content-length") = false ->
          headers res' !! "content-length" =
            match Utils.body ct with
            | Some c =>
                if chunk_truthy c then Some (HNum (byteLength c))
                else headers res !! "content-length"
            | None => headers res !! "content-length"
            end)
      /\ forall k, k <> "content-type" -> k <> "content-length" ->
                   headers res' !! k = headers res !! k).
Proof.
  intros Hn Hu ct res'. subst res'.
  rewrite (prepare_non_nullish res body Hn Hu). fold ct.
  destruct (bodiless_status res) eqn:Hs.
  - split; [reflexivity|]. split; [reflexivity|]. split; [reflexivity|].
    discriminate.
  - cbn zeta.
    assert (Hst : forall (b : bool) (r1 r2 : ServerResponse),
               statusCode r1 = statusCode res -> statusCode r2 = statusCode res ->
               statusCode (if b then r1 else r2) = statusCode res)
      by (intros []; auto).
    split; [reflexivity|]. split.
    { destruct (Utils.type ct) as [t|], (Utils.body ct) as [c|]; simpl;
        repeat match goal with
               | |- context [if ?b then _ else _] => destruct b
               end; reflexivity. }
    split; [discriminate|]. intros _.
    destruct (header_truthy (headers res !! "content-type")) eqn:Ht,
             (header_truthy (headers res !! "content-length")) eqn:Hl;
      rewrite ?andb_false_r, ?andb_true_r;
      repeat split; try discriminate; intros;
      destruct (Utils.type ct) as [t|], (Utils.body ct) as [c|]; cbn [fst];
      repeat match goal with
             | |- context [str_truthy ?t] => destruct (str_truthy t)
             | |- context [chunk_truthy ?c] => destruct (chunk_truthy c)
             end; cbn [andb negb];
      rewrite ?headers_header, ?lower_content_type, ?lower_content_length;
      rewrite ?lookup_insert_eq;
      rewrite ?lookup_insert_ne by (first [discriminate | congruence]);
      rewrite ?lookup_insert_eq;
      reflexivity.
Qed.

End PrepareClaims.

Lemma prepare_sets_headers_unless_truthy_witness :
  let res := Response.header fresh_response "Content-Type" (HStr (js "text/css")) in
  let res' := fst (Response.prepare (H := demo_platform) res (BString (js "hi"))) in
  snd (Response.prepare (H := demo_platform) res (BString (js "hi"))) = Some (CStr (js "hi"))
  /\ headers res' !! "content-type" = Some (HStr (js "text/css"))
  /\ headers res' !! "content-length" = Some (HNum 2).
Proof.
  intros res res'.
  destruct (prepare_sets_headers_unless_truthy (H := demo_platform) res (BString (js "hi")))
    as (Hc & _ & _ & Hh); [discriminate | discriminate |].
  destruct (Hh eq_refl) as (Ht & _ & _ & Hl & _).
  split; [exact Hc|]. split.
  - exact (Ht eq_refl).
  - exact (Hl eq_refl).
Defined.

(** C5 as stated fails: both headers are set on the response, to the number
    0 and to the empty string, and [prepare] replaces the two of them. *)
Lemma prepare_overwrites_falsy_headers :
  let res := falsy_headers_response in
  let res' := fst (Response.prepare (H := demo_platform) res (BString (js "hi"))) in
  ~ (is_Some (headers res !! "content-length") ->
     headers res' !! "content-length" = headers res !! "content-length")
  /\ ~ (is_Some (headers res !! "content-type") ->
        headers res' !! "content-type" = headers res !! "content-type").
Proof.
  split; intros Hc.
  - assert (E := Hc (ex_intro _ (HNum 0) eq_refl)). vm_compute in E. discriminate.
  - assert (E := Hc (ex_intro _ (HStr []) eq_refl)). vm_compute in E. discriminate.
Qed.

(** ** Sending *)

Lemma content_bytes_app (out1 out2 : list OutOp) :
  content_bytes (out1 ++ out2) = content_bytes out1 + content_bytes out2.
Proof.
  unfold content_bytes. induction out1 as [|op out1 IH]; simpl; [reflexivity|].
  rewrite IH. lia.
Qed.

Section Send.
Context `{Platform}.

(** [send] on a body that is not a stream, by cases on the prepared chunk. *)
Lemma send_not_stream (req : IncomingMessage) (res : ServerResponse)
    (body : Body JsObject) (generateEtag : bool) :
  Response.body_truthy body && Response.has_pipe body = false ->
  Response.send req res body generateEtag =
    let res1 := fst (Response.prepare res body) in
    match snd (Response.prepare res body) with
    | None => (Response.end_ res1 None, None)
    | Some c =>
        if String.eqb (method req) "HEAD" then (Response.end_ res1 None, None)
        else
          (Response.end_ (if generateEtag then Response.etag res1 c else res1) (Some c),
           None)
    end.
Proof.
  intros Hs. unfold Response.send. rewrite Hs.
  destruct (Response.prepare res body) as [res1 chunk]. reflexivity.
Qed.

(** [send] on a stream: the call leaves the response as it is and a piping
    call in flight. *)
Lemma send_stream (req : IncomingMessage) (res : ServerResponse)
    (body : Body JsObject) (generateEtag : bool) :
  Response.body_truthy body && Response.has_pipe body = true ->
  Response.send req res body generateEtag =
    (res, Some {| promise := Pending; finished := false; piped := true;
                  onFinished_armed := true; destroys := 0 |}).
Proof.
  intros Hs. unfold Response.send. rewrite Hs.
  apply andb_true_iff in Hs as [_ Hp].
  unfold Response.stream. destruct body; try discriminate. rewrite Hp. reflexivity.
Qed.

Lemma nullish_not_stream (body : Body JsObject) :
  body = BNull \/ body = BUndefined -> Response.body_truthy body && Response.has_pipe body = false.
Proof. intros [-> | ->]; reflexivity. Qed.

(** C3, as amended. For every null or absent body passed to [send], the
    response is ended with no body, its status code is 204 whatever status
    code the caller had set, and the Content-Type, Content-Length and
    Transfer-Encoding headers are absent; the other headers and the earlier
    output are as they were, and no piping call is started. *)
Theorem send_nullish_body (req : IncomingMessage) (res : ServerResponse)
    (body : Body JsObject) (generateEtag : bool) :
  body = BNull \/ body = BUndefined ->
  let res' := fst (Response.send req res body generateEtag) in
  snd (Response.send req res body generateEtag) = None
  /\ output res' = output res ++ [OEnd None]
  /\ statusCode res' = 204
  /\ headers res' !! "content-type" = None
  /\ headers res' !! "content-length" = None
  /\ headers res' !! "transfer-encoding" = None
  /\ headers res' = without_body_headers (headers res).
Proof.
  intros Hb res'. subst res'.
  rewrite (send_not_stream _ _ _ _ (nullish_not_stream body Hb)).
  rewrite (prepare_nullish res body Hb). cbn [fst snd Response.end_ Response.log_output
    output statusCode headers].
  rewrite !without_body_headers_lookup.
  repeat split; reflexivity.
Qed.

(** For a body that is neither null, absent nor a stream, [send] leaves the
    status code as the caller set it. *)
Lemma send_keeps_status (req : IncomingMessage) (res : ServerResponse)
    (body : Body JsObject) (generateEtag : bool) :
  body <> BNull -> body <> BUndefined ->
  Response.body_truthy body && Response.has_pipe body = false ->
  statusCode (fst (Response.send req res body generateEtag)) = statusCode res.
Proof.
  intros Hn Hu Hs. rewrite (send_not_stream _ _ _ _ Hs).
  assert (Hst := prepare_statusCode res body Hn Hu).
  destruct (snd (Response.prepare res body)); [|exact Hst].
  destruct (String.eqb (method req) "HEAD"); [exact Hst|].
  destruct generateEtag; exact Hst.
Qed.

End Send.

Lemma send_nullish_body_witness :
  let res := Response.status
               (Response.header fresh_response "Content-Type" (HStr (js "text/css")))
               404 in
  let res' := fst (Response.send (H := demo_platform) GET res BUndefined true) in
  output res' = [OEnd None] /\ statusCode res' = 204
  /\ headers res' !! "content-type" = None.
Proof.
  intros res res'.
  destruct (send_nullish_body (H := demo_platform) GET res BUndefined true
              (or_intror eq_refl)) as (_ & Ho & Hs & Ht & _).
  exact (conj Ho (conj Hs Ht)).
Defined.

(** C3 as stated fails: the caller set status 404 before sending a null body,
    and the response ends with status 204, not with the caller's status. *)
Lemma send_null_overrides_status :
  let res := Response.status fresh_response 404 in
  let res' := fst (Response.send (H := demo_platform) GET res BNull true) in
  statusCode res = 404 /\ ~ statusCode res' = statusCode res.
Proof. split; [reflexivity|]. vm_compute. discriminate. Qed.

Section SendClaims.
Context `{Platform}.

(** C10. On a stream body [send] sets no header. On any other body it sets
    the ETag header, computed from the prepared content, exactly when that
    content is neither null nor undefined, the method is not HEAD and etag
    generation is on; otherwise the ETag header is as it was before the call.
    In particular the ETag header is set under status 204 or 304, where
    preparation has removed Content-Type, Content-Length and
    Transfer-Encoding. *)
Theorem send_sets_etag (req : IncomingMessage) (res : ServerResponse)
    (body : Body JsObject) (generateEtag : bool) :
  let res' := fst (Response.send req res body generateEtag) in
  let chunk := snd (Response.prepare res body) in
  if Response.body_truthy body && Response.has_pipe body then res' = res
  else
    (forall c, chunk = Some c -> method req <> "HEAD" -> generateEtag = true ->
               headers res' !! "etag" = Some (HStr (etag c))
               /\ (bodiless_status res = true ->
                   headers res' !! "content-type" = None
                   /\ headers res' !! "content-length" = None
                   /\ headers res' !! "transfer-encoding" = None))
    /\ (chunk = None \/ method req = "HEAD" \/ generateEtag = false ->
        headers res' !! "etag" = headers res !! "etag").
Proof.
  intros res' chunk.
  destruct (Response.body_truthy body && Response.has_pipe body) eqn:Hs.
  { subst res'. rewrite (send_stream _ _ _ _ Hs). reflexivity. }
  assert (Hp : forall k, k <> "content-type" -> k <> "content-length" ->
                         k <> "transfer-encoding" ->
                         headers (fst (Response.prepare res body)) !! k = headers res !! k)
    by (intros; apply prepare_other_headers; assumption).
  subst res' chunk. rewrite (send_not_stream _ _ _ _ Hs). cbn zeta.
  destruct (snd (Response.prepare res body)) as [c|] eqn:Hc.
  - destruct (String.eqb_spec (method req) "HEAD") as [Hm | Hm].
    + split; [intros c' _ Hne; contradiction|].
      intros _. apply Hp; discriminate.
    + split.
      * intros c' [= <-] _ ->.
        cbn [fst Response.end_ Response.log_output headers]. unfold Response.etag.
        rewrite headers_header, lower_etag. split; [apply lookup_insert_eq|].
        intros Hb. rewrite !lookup_insert_ne by discriminate.
        destruct body; try discriminate;
          unfold Response.prepare; unfold bodiless_status in Hb; rewrite Hb;
          cbn [fst headers Response.removeHeader Response.set_headers];
          change (delete (toLowerCase "Transfer-Encoding")
                    (delete (toLowerCase "Content-Length")
                       (delete (toLowerCase "Content-Type") (headers res))))
            with (without_body_headers (headers res));
          rewrite !without_body_headers_lookup; repeat split; reflexivity.
      * intros [Hx | [Hx | ->]]; [discriminate | contradiction |].
        apply Hp; discriminate.
  - split; [intros c' Hx; discriminate|].
    intros _. apply Hp; discriminate.
Qed.

End SendClaims.

Lemma send_sets_etag_witness :
  let res := Response.status fresh_response 204 in
  let res' := fst (Response.send (H := demo_platform) GET res (BString (js "hi")) true) in
  headers res' !! "etag" = Some (HStr (etag (Platform := demo_platform) (CStr (js "hi"))))
  /\ headers res' !! "content-type" = None.
Proof.
  intros res res'.
  destruct (send_sets_etag (H := demo_platform) GET res (BString (js "hi")) true)
    as [Hset _].
  destruct (Hset (CStr (js "hi")) eq_refl ltac:(discriminate) eq_refl) as [He Hb].
  destruct (Hb eq_refl) as [Ht _].
  exact (conj He Ht).
Defined.

(** ** Stream piping *)

Section PipingLemmas.
Context `{Platform}.

Lemma run_app (evs1 evs2 : list Event) (st : ServerResponse * Piping) :
  run (evs1 ++ evs2) st = run evs2 (run evs1 st).
Proof. unfold run. apply fold_left_app. Qed.

Lemma run_cons (ev : Event) (evs : list Event) (st : ServerResponse * Piping) :
  run (ev :: evs) st = run evs (handle ev st).
Proof. reflexivity. Qed.

Lemma handle_inv (ev : Event) (st : ServerResponse * Piping) :
  piping_inv (snd st) -> piping_inv (snd (handle ev st)).
Proof.
  destruct st as [res p]. unfold piping_inv. cbn [snd].
  intros (Hp & Hf & Ha & Hd). unfold handle. rewrite Hp. cbn [negb].
  destruct ev as [c | | e |]; cbn [snd].
  - auto.
  - unfold Response.stream_on_end, Response.resolve.
    destruct (promise p); cbn; auto.
  - unfold Response.stream_on_error.
    destruct (finished p) eqn:Hfin.
    { rewrite Hfin. split; [assumption|]. split; [discriminate|]. split; assumption. }
    destruct (Hf eq_refl) as [Hz Harm].
    unfold Response.reject, Response.destroy, Response.mark_finished.
    destruct (promise p); cbn; rewrite Hz, Harm;
      (split; [assumption|]); repeat split; try discriminate; lia.
  - destruct (onFinished_armed p) eqn:Harm; cbn [snd].
    + specialize (Ha eq_refl).
      unfold Response.stream_on_finished, Response.destroy, Response.mark_finished.
      cbn. repeat split; try discriminate; lia.
    + rewrite ?Harm. intuition discriminate.
Qed.

Lemma run_inv (evs : list Event) (st : ServerResponse * Piping) :
  piping_inv (snd st) -> piping_inv (snd (run evs st)).
Proof.
  revert st. induction evs as [|ev evs IH]; intros st Hi; [exact Hi|].
  rewrite run_cons. apply IH, handle_inv, Hi.
Qed.

(** Once the completion listener has run it stays so. *)
Lemma handle_disarmed (ev : Event) (st : ServerResponse * Piping) :
  onFinished_armed (snd st) = false -> onFinished_armed (snd (handle ev st)) = false.
Proof.
  destruct st as [res p]. cbn [snd]. intros Ha. unfold handle.
  destruct (piped p); cbn [negb snd]; [|exact Ha].
  destruct ev as [c | | e |]; cbn [snd].
  - exact Ha.
  - unfold Response.stream_on_end, Response.resolve. destruct (promise p); exact Ha.
  - unfold Response.stream_on_error, Response.reject.
    destruct (finished p); [exact Ha|]. cbn. destruct (promise p); exact Ha.
  - rewrite Ha. exact Ha.
Qed.

Lemma run_disarmed (evs : list Event) (st : ServerResponse * Piping) :
  onFinished_armed (snd st) = false -> onFinished_armed (snd (run evs st)) = false.
Proof.
  revert st. induction evs as [|ev evs IH]; intros st Ha; [exact Ha|].
  rewrite run_cons. apply IH, handle_disarmed, Ha.
Qed.

Lemma handle_piped (ev : Event) (st : ServerResponse * Piping) :
  piped (snd (handle ev st)) = piped (snd st).
Proof.
  destruct st as [res p]. cbn [snd]. unfold handle.
  destruct (piped p) eqn:Hp; cbn [negb snd]; [|exact Hp].
  destruct ev as [c | | e |]; cbn [snd]; try exact Hp.
  - unfold Response.stream_on_end, Response.resolve.
    destruct (promise p); first [exact Hp | reflexivity].
  - unfold Response.stream_on_error, Response.reject.
    destruct (finished p); [exact Hp|]. cbn.
    destruct (promise p); first [exact Hp | reflexivity].
  - destruct (onFinished_armed p); first [exact Hp | reflexivity].
Qed.

Lemma run_piped (evs : list Event) (st : ServerResponse * Piping) :
  piped (snd (run evs st)) = piped (snd st).
Proof.
  revert st. induction evs as [|ev evs IH]; intros st; [reflexivity|].
  rewrite run_cons, IH. apply handle_piped.
Qed.

Lemma run_response_finished (evs : list Event) (st : ServerResponse * Piping) :
  piped (snd st) = true -> In ResponseFinished evs ->
  onFinished_armed (snd (run evs st)) = false.
Proof.
  intros Hp Hin. apply in_split in Hin as (evs1 & evs2 & ->).
  rewrite run_app, run_cons. apply run_disarmed.
  assert (Hp' : piped (snd (run evs1 st)) = true) by (rewrite run_piped; exact Hp).
  destruct (run evs1 st) as [res p]. cbn [snd] in *. unfold handle. rewrite Hp'.
  cbn [negb]. destruct (onFinished_armed p) eqn:Ha; [reflexivity | exact Ha].
Qed.

(** Without a completion of the response among the events, the listener is
    still pending. *)
Lemma run_armed (evs : list Event) (st : ServerResponse * Piping) :
  ~ In ResponseFinished evs -> onFinished_armed (snd st) = true ->
  onFinished_armed (snd (run evs st)) = true.
Proof.
  revert st. induction evs as [|ev evs IH]; intros st Hn Ha; [exact Ha|].
  rewrite run_cons. apply IH; [intros Hin; apply Hn; right; exact Hin|].
  destruct st as [res p]. cbn [snd] in *. unfold handle.
  destruct (piped p); cbn [negb snd]; [|exact Ha].
  destruct ev as [c | | e |]; cbn [snd].
  - exact Ha.
  - unfold Response.stream_on_end, Response.resolve. destruct (promise p); exact Ha.
  - unfold Response.stream_on_error, Response.reject.
    destruct (finished p); [exact Ha|]. cbn. destruct (promise p); exact Ha.
  - exfalso. apply Hn. left. reflexivity.
Qed.

Lemma stream_pipeable (res : ServerResponse) (body : Body JsObject) :
  Response.has_pipe body = true ->
  Response.stream res body =
    (res, {| promise := Pending; finished := false; piped := true;
             onFinished_armed := true; destroys := 0 |}).
Proof.
  intros Hp. unfold Response.stream. destruct body; try discriminate.
  rewrite Hp. reflexivity.
Qed.

Lemma stream_inv (res : ServerResponse) (body : Body JsObject) :
  Response.has_pipe body = true -> piping_inv (snd (Response.stream res body)).
Proof.
  intros Hp. rewrite (stream_pipeable res body Hp). unfold piping_inv. cbn.
  repeat split; try discriminate; lia.
Qed.

End PipingLemmas.

Section Settlement.
Context `{Platform}.

(** An event either leaves the promise as it is, or settles a pending
    promise: [end] fulfils it, [error] rejects it with the stream's error
    provided [finished] is not set. *)
Lemma handle_promise (ev : Event) (st : ServerResponse * Piping) :
  promise (snd (handle ev st)) = promise (snd st)
  \/ (promise (snd st) = Pending
      /\ ((ev = StreamEnd /\ promise (snd (handle ev st)) = Fulfilled)
          \/ (exists e, ev = StreamError e /\ finished (snd st) = false
                        /\ promise (snd (handle ev st)) = Rejected e))).
Proof.
  destruct st as [res p]. cbn [snd]. unfold handle.
  destruct (piped p); cbn [negb snd]; [|left; reflexivity].
  destruct ev as [c | | e |]; cbn [snd].
  - left. reflexivity.
  - unfold Response.stream_on_end, Response.resolve.
    destruct (promise p) eqn:Hpr; [|left; exact Hpr..].
    right. split; [reflexivity|]. left. split; reflexivity.
  - unfold Response.stream_on_error, Response.reject.
    destruct (finished p) eqn:Hf; [left; reflexivity|]. cbn.
    destruct (promise p) eqn:Hpr; [|left; exact Hpr..].
    right. split; [reflexivity|]. right. exists e. repeat split; reflexivity.
  - destruct (onFinished_armed p); left; reflexivity.
Qed.

Lemma settles_cases (ev : Event) (st : ServerResponse * Piping) :
  settles ev st = true ->
  promise (snd st) = Pending
  /\ ((ev = StreamEnd /\ promise (snd (handle ev st)) = Fulfilled)
      \/ (exists e, ev = StreamError e /\ finished (snd st) = false
                    /\ promise (snd (handle ev st)) = Rejected e)).
Proof.
  unfold settles. intros Hs.
  destruct (handle_promise ev st) as [Heq | Hcase]; [|exact Hcase].
  rewrite Heq in Hs. destruct (promise (snd st)); discriminate.
Qed.

Lemma settles_not_pending (ev : Event) (st : ServerResponse * Piping) :
  promise (snd st) <> Pending -> settles ev st = false.
Proof.
  intros Hn. unfold settles. destruct (promise (snd st)); [contradiction|reflexivity..].
Qed.

Lemma handle_settled (ev : Event) (st : ServerResponse * Piping) :
  promise (snd st) <> Pending -> promise (snd (handle ev st)) = promise (snd st).
Proof.
  intros Hn. destruct (handle_promise ev st) as [Heq | [Hp _]]; [exact Heq|contradiction].
Qed.

Lemma settlements_settled (evs : list Event) (st : ServerResponse * Piping) :
  promise (snd st) <> Pending -> settlements evs st = [].
Proof.
  revert st. induction evs as [|ev evs IH]; intros st Hn; [reflexivity|].
  cbn [settlements]. rewrite (settles_not_pending ev st Hn). apply IH.
  rewrite (handle_settled ev st Hn). exact Hn.
Qed.

Lemma settlements_at_most_one (evs : list Event) (st : ServerResponse * Piping) :
  (length (settlements evs st) <= 1)%nat.
Proof.
  revert st. induction evs as [|ev evs IH]; intros st; cbn [settlements]; [cbn; lia|].
  destruct (settles ev st) eqn:Hs; [|apply IH].
  rewrite settlements_settled; [cbn; lia|].
  destruct (settles_cases ev st Hs) as (_ & [[_ ->] | (e & _ & _ & ->)]); discriminate.
Qed.

Lemma settlements_cause (evs : list Event) (st : ServerResponse * Piping)
    (ev : Event) (ps : PromiseState) :
  In (ev, ps) (settlements evs st) ->
  (ev = StreamEnd /\ ps = Fulfilled) \/ (exists e, ev = StreamError e /\ ps = Rejected e).
Proof.
  revert st. induction evs as [|ev0 evs IH]; intros st; cbn [settlements]; [intros []|].
  intros Hin. apply in_app_or in Hin as [Hin | Hin]; [|exact (IH _ Hin)].
  destruct (settles ev0 st) eqn:Hs; [|destruct Hin].
  destruct Hin as [[= <- <-] | []].
  destruct (settles_cases ev0 st Hs) as (_ & [[-> ->] | (e & -> & _ & ->)]);
    [left; split; reflexivity | right; exists e; split; reflexivity].
Qed.

(** Once [finished] is set it stays set. *)
Lemma run_finished (evs : list Event) (st : ServerResponse * Piping) :
  finished (snd st) = true -> finished (snd (run evs st)) = true.
Proof.
  revert st. induction evs as [|ev evs IH]; intros st Hf; [exact Hf|].
  rewrite run_cons. apply IH. destruct st as [res p]. cbn [snd] in *. unfold handle.
  destruct (piped p); cbn [negb snd]; [|exact Hf].
  destruct ev as [c | | e |]; cbn [snd].
  - exact Hf.
  - unfold Response.stream_on_end, Response.resolve.
    destruct (promise p); first [exact Hf | reflexivity].
  - unfold Response.stream_on_error. rewrite Hf. exact Hf.
  - destruct (onFinished_armed p); first [exact Hf | reflexivity].
Qed.

(** With [finished] set, no event but the stream's [end] settles the promise. *)
Lemma settlements_finished (evs : list Event) (st : ServerResponse * Piping) :
  finished (snd st) = true -> ~ In StreamEnd evs -> settlements evs st = [].
Proof.
  revert st. induction evs as [|ev evs IH]; intros st Hf Hn; [reflexivity|].
  cbn [settlements].
  assert (Hs : settles ev st = false).
  { destruct (settles ev st) eqn:Hs; [|reflexivity].
    destruct (settles_cases ev st Hs) as (_ & [[-> _] | (e & _ & Hf' & _)]).
    - exfalso. apply Hn. left. reflexivity.
    - congruence. }
  rewrite Hs. cbn [app]. apply IH.
  - exact (run_finished [ev] st Hf).
  - intros Hin. apply Hn. right. exact Hin.
Qed.

End Settlement.

Section PipingClaims.
Context `{Platform}.

(** C2, as amended. The stream-piping operation settles at most once. It
    completes successfully only when the stream emits [end], and fails only
    when the stream emits [error], with the stream's error, or at once, with
    the response untouched, when the input is not pipe-capable: with the
    error [Body is not a valid stream] for an input other than [null] and
    [undefined], and for these two with the error the engine raises when
    their [pipe] property is read (nothing is attached then, and no event has
    any effect). While the operation is pending, [end] fulfils it, and
    [error] rejects it unless [finished] is set. Response completion never
    settles it; once the response has completed a stream error no longer
    fails the operation, which then stays unsettled unless the stream emits
    [end]. *)
Theorem stream_settlement (res : ServerResponse) (body : Body JsObject)
    (evs : list Event) :
  let st0 := Response.stream res body in
  let st := run evs st0 in
  fst st0 = res
  /\ (Response.has_pipe body = false ->
      (exists e, promise (snd st0) = Rejected e
                 /\ (nullish body = false -> e = Response.invalid_stream_error)
                 /\ (nullish body = true -> e = property_of_nullish))
      /\ st = st0)
  /\ (Response.has_pipe body = true -> promise (snd st0) = Pending)
  /\ (length (settlements evs st0) <= 1)%nat
  /\ (forall ev ps, In (ev, ps) (settlements evs st0) ->
        (ev = StreamEnd /\ ps = Fulfilled)
        \/ (exists e, ev = StreamError e /\ ps = Rejected e))
  /\ (Response.has_pipe body = true ->
      (promise (snd st) = Pending -> promise (snd (handle StreamEnd st)) = Fulfilled)
      /\ (promise (snd st) = Pending -> finished (snd st) = false ->
          forall e, promise (snd (handle (StreamError e) st)) = Rejected e)
      /\ promise (snd (handle ResponseFinished st)) = promise (snd st)
      /\ (In ResponseFinished evs ->
          forall evs', ~ In StreamEnd evs' -> settlements evs' st = [])).
Proof.
  intros st0 st.
  split; [|split; [|split; [|split; [|split]]]].
  - subst st0. unfold Response.stream.
    destruct body; try reflexivity; destruct (negb _); reflexivity.
  - intros Hp.
    assert (Hr : exists e, st0 = (res, Response.rejected_at_once e)
                 /\ (nullish body = false -> e = Response.invalid_stream_error)
                 /\ (nullish body = true -> e = property_of_nullish)).
    { subst st0. unfold Response.stream.
      destruct body;
        try (exists property_of_nullish;
             split; [reflexivity | split; [discriminate | reflexivity]]);
        rewrite Hp; exists Response.invalid_stream_error;
        (split; [reflexivity | split; [reflexivity | discriminate]]). }
    destruct Hr as (e & Hst & He). split.
    + exists e. rewrite Hst. split; [reflexivity | exact He].
    + subst st. rewrite Hst. clear. induction evs as [|ev evs IH]; [reflexivity|].
      rewrite run_cons. exact IH.
  - intros Hp. subst st0. rewrite (stream_pipeable res body Hp). reflexivity.
  - apply settlements_at_most_one.
  - intros ev ps. apply settlements_cause.
  - intros Hp.
    assert (Hpi : piped (snd st) = true).
    { subst st st0. rewrite run_piped, (stream_pipeable res body Hp). reflexivity. }
    split; [|split; [|split]].
    + intros Hpend. destruct st as [r p]. cbn [snd] in *. unfold handle.
      rewrite Hpi. cbn [negb snd]. unfold Response.stream_on_end, Response.resolve.
      rewrite Hpend. reflexivity.
    + intros Hpend Hfin e. destruct st as [r p]. cbn [snd] in *. unfold handle.
      rewrite Hpi. cbn [negb snd]. unfold Response.stream_on_error, Response.reject.
      rewrite Hfin. cbn. rewrite Hpend. reflexivity.
    + destruct (handle_promise ResponseFinished st)
        as [Heq | (_ & [[Hx _] | (e & Hx & _)])]; [exact Heq | discriminate..].
    + intros Hin evs' Hn. apply settlements_finished; [|exact Hn].
      assert (Hi : piping_inv (snd st)) by (apply run_inv, stream_inv, Hp).
      destruct Hi as (_ & _ & _ & Hd). apply Hd.
      apply run_response_finished; [|exact Hin].
      subst st0. rewrite (stream_pipeable res body Hp). reflexivity.
Qed.

End PipingClaims.

(** A stream that is consumed to its end: the chunk is written, the pipe ends
    the response, the operation succeeds, and the completion of the response
    releases the stream once. *)
Example stream_normal_completion :
  run [StreamData (CStr (js "hello")); StreamEnd; ResponseFinished]
    (Response.stream (H := demo_platform) fresh_response (BObject true))
  = ({| statusCode := 200; headers := ∅;
        output := [OWrite (CStr (js "hello")); OEnd None] |},
     {| promise := Fulfilled; finished := true; piped := true;
        onFinished_armed := false; destroys := 1 |}).
Proof. reflexivity. Qed.

(** C1 as stated fails: the stream errs, which releases it, and the response
    then completes, which releases it a second time, for the completion
    handler does not look at the [finished] flag the error handler has set. *)
Lemma stream_released_twice :
  let evs := [StreamError enoent; ResponseFinished] in
  let st1 := run [StreamError enoent]
               (Response.stream (H := demo_platform) fresh_response (BObject true)) in
  let p := snd (run evs
                  (Response.stream (H := demo_platform) fresh_response (BObject true))) in
  finished (snd st1) = true /\ destroys (snd st1) = 1%nat
  /\ destroys p = 2%nat /\ ~ (destroys p <= 1)%nat.
Proof. vm_compute. repeat split. intros Hle. inversion Hle as [|? Hle']. inversion Hle'. Qed.

Lemma stream_settlement_witness :
  let st0 := Response.stream (H := demo_platform) fresh_response (BString (js "text")) in
  fst st0 = fresh_response
  /\ (exists e, promise (snd st0) = Rejected e /\ e = Response.invalid_stream_error)
  /\ run [StreamEnd] st0 = st0.
Proof.
  intros st0.
  destruct (stream_settlement (H := demo_platform) fresh_response (BString (js "text"))
              [StreamEnd]) as (Hres & Hnp & _).
  destruct (Hnp eq_refl) as ((e & Hrej & He & _) & Hrun).
  split; [exact Hres|]. split; [|exact Hrun].
  exists e. split; [exact Hrej|]. apply He. reflexivity.
Defined.

(** C2 as stated fails: the response completes first, the stream then emits
    an error, and the operation has not settled: it neither failed nor
    succeeded, and no later error or completion settles it. *)
Lemma stream_error_after_completion_unsettled :
  let st0 := Response.stream (H := demo_platform) fresh_response (BObject true) in
  let evs := [ResponseFinished; StreamError enoent] in
  promise (snd (run evs st0)) = Pending
  /\ ~ length (settlements evs st0) = 1%nat.
Proof. vm_compute. split; [reflexivity | discriminate]. Qed.

(** ** A stream handed to [send] that fails *)

Section SendStream.
Context `{Platform}.

(** Data events reaching the piping call of a [send]: the pipe writes the
    chunks, nothing else changes. *)
Lemma deliver_all_data (req : IncomingMessage) (generateEtag : bool)
    (chunks : list Chunk) (res : ServerResponse) (p : Piping) :
  piped p = true ->
  deliver_all req generateEtag (List.map StreamData chunks) (res, p)
  = (written res chunks, p).
Proof.
  intros Hp. revert res. induction chunks as [|c chunks IH]; intros res.
  - unfold written. cbn. rewrite app_nil_r. destruct res; reflexivity.
  - cbn [List.map deliver_all fold_left].
    assert (Hd : deliver req generateEtag (StreamData c) (res, p)
                 = (Response.write res c, p)).
    { unfold deliver, handle. rewrite Hp. cbn [negb snd fst].
      destruct (promise p); reflexivity. }
    rewrite Hd. unfold deliver_all in IH. rewrite IH.
    unfold written, Response.write, Response.log_output. cbn.
    rewrite <- app_assoc. reflexivity.
Qed.

Lemma deliver_all_app (req : IncomingMessage) (generateEtag : bool)
    (evs1 evs2 : list Event) (st : ServerResponse * Piping) :
  deliver_all req generateEtag (evs1 ++ evs2) st
  = deliver_all req generateEtag evs2 (deliver_all req generateEtag evs1 st).
Proof. unfold deliver_all. apply fold_left_app. Qed.

(** [send] on a string ends the response with it, or with no body under
    HEAD. *)
Lemma send_string_output (req : IncomingMessage) (res : ServerResponse)
    (s : JsString) (generateEtag : bool) :
  output (fst (Response.send req res (BString s) generateEtag))
  = output res ++ [OEnd (if String.eqb (method req) "HEAD" then None
                         else Some (CStr s))].
Proof.
  rewrite send_not_stream by (cbn; apply andb_false_r).
  assert (Hc : snd (Response.prepare res (BString s)) = Some (CStr s)).
  { unfold Response.prepare. cbn [Utils.returnContentAndType Utils.body Utils.type].
    repeat match goal with
           | |- context [if ?b then _ else _] => destruct b
           end; reflexivity. }
  rewrite Hc. cbn zeta.
  destruct (String.eqb (method req) "HEAD");
    [|destruct generateEtag];
    cbn [fst Response.end_ Response.log_output output Response.etag Response.header
         Response.set_headers];
    rewrite prepare_output; reflexivity.
Qed.


End SendStream.



(** ** JSONP *)

Lemma replace_all_absent (c : N) (r s : JsString) :
  ~ In c r -> ~ In c (replace_all c r s).
Proof.
  intros Hr. induction s as [|d s IH]; cbn [replace_all]; [intros []|].
  destruct (N.eqb_spec d c) as [-> | Hne].
  - intros Hin. apply in_app_or in Hin as [Hin | Hin]; [exact (Hr Hin) | exact (IH Hin)].
  - intros [Heq | Hin]; [exact (Hne Heq) | exact (IH Hin)].
Qed.

Lemma replace_all_keeps_absent (c d : N) (r s : JsString) :
  ~ In d r -> ~ In d s -> ~ In d (replace_all c r s).
Proof.
  intros Hr. induction s as [|x s IH]; cbn [replace_all]; [intros _ []|].
  intros Hs. destruct (x =? c)%N.
  - intros Hin. apply in_app_or in Hin as [Hin | Hin]; [exact (Hr Hin)|].
    apply IH; [|exact Hin]. intros Hx. apply Hs. right. exact Hx.
  - intros [Heq | Hin]; [apply Hs; left; exact Heq|].
    apply IH; [|exact Hin]. intros Hx. apply Hs. right. exact Hx.
Qed.

Lemma replace_all_id (c : N) (r s : JsString) :
  ~ In c s -> replace_all c r s = s.
Proof.
  induction s as [|d s IH]; cbn [replace_all]; [reflexivity|]. intros Hn.
  destruct (N.eqb_spec d c) as [-> | Hne]; [exfalso; apply Hn; left; reflexivity|].
  rewrite IH; [reflexivity|]. intros Hin. apply Hn. right. exact Hin.
Qed.

(** The escaped text holds neither separator. *)
Lemma escape_separators_clean (json : JsString) :
  ~ In 8232%N (escape_separators json) /\ ~ In 8233%N (escape_separators json).
Proof.
  unfold escape_separators. split.
  - apply replace_all_keeps_absent.
    + vm_compute. intuition discriminate.
    + apply replace_all_absent. vm_compute. intuition discriminate.
  - apply replace_all_absent. vm_compute. intuition discriminate.
Qed.

Section Jsonp.
Context `{Platform}.

(** What [prepareJsonp] returns and sets, for a body [JSON.stringify] can
    serialize and a response whose Content-Type is absent or truthy. *)
Lemma prepareJsonp_result (res : ServerResponse) (body : Body JsObject)
    (callbackFn json : JsString) :
  JSON_stringify body = Some json ->
  let res' := fst (Response.prepareJsonp res body callbackFn) in
  snd (Response.prepareJsonp res body callbackFn)
  = Some (js "/**/ typeof " ++ callbackFn ++ js " === 'function' && "
            ++ callbackFn ++ js "(" ++ escape_separators json ++ js ");")
  /\ Response.getHeader res' "X-Content-Type-Options" = Some (HStr (js "nosniff"))
  /\ (Response.getHeader res "Content-Type" = None ->
      Response.getHeader res' "Content-Type"
      = Some (HStr (js "text/javascript; charset=utf-8")))
  /\ (header_truthy (Response.getHeader res "Content-Type") = true ->
      Response.getHeader res' "Content-Type" = Response.getHeader res "Content-Type").
Proof.
  intros Hj res'. subst res'. unfold Response.prepareJsonp. rewrite Hj.
  cbn [fst snd]. split; [reflexivity|].
  set (res1 := Response.header res "X-Content-Type-Options" (HStr (js "nosniff"))).
  assert (Hct : Response.getHeader res1 "Content-Type" = Response.getHeader res "Content-Type").
  { unfold res1, Response.getHeader. rewrite headers_header.
    apply lookup_insert_ne. discriminate. }
  assert (Hx : Response.getHeader res1 "X-Content-Type-Options" = Some (HStr (js "nosniff")))
    by apply getHeader_header.
  unfold Response.safeHeader. rewrite Hct.
  destruct (header_truthy (Response.getHeader res "Content-Type")) eqn:Ht; cbn [negb].
  - split; [exact Hx|]. split; [|intros _; exact Hct].
    intros Hnone. rewrite Hnone in Ht. discriminate.
  - split; [|split; [|discriminate]].
    + unfold Response.getHeader. rewrite headers_header.
      rewrite lookup_insert_ne by discriminate. exact Hx.
    + intros _. apply getHeader_header.
Qed.

End Jsonp.

(** C9, evaluated where it fails. The response holds a Content-Type header
    whose value is the empty string; [prepareJsonp] replaces it by
    [text/javascript; charset=utf-8], because [safeHeader] takes the falsy
    value for a missing header. The returned text is the one C9 gives: the
    serialization [{}] of the body, wrapped in the guarded call of [cb]. *)
Theorem prepareJsonp_overwrites_empty_content_type :
  let res := Response.header fresh_response "Content-Type" (HStr []) in
  let out := Response.prepareJsonp (H := demo_platform) res (BObject false) (js "cb") in
  Response.getHeader res "Content-Type" = Some (HStr [])
  /\ Response.getHeader (fst out) "Content-Type"
     = Some (HStr (js "text/javascript; charset=utf-8"))
  /\ snd out = Some (js "/**/ typeof cb === 'function' && cb({});").
Proof. vm_compute. repeat split. Qed.

Example prepareJsonp_escapes :
  snd (Response.prepareJsonp (H := demo_platform) fresh_response
         (BString [97; 8232; 98; 8233]%N) (js "cb"))
  = Some (js "/**/ typeof cb === 'function' && cb(" ++ [34%N]
            ++ js "a\u2028b\u2029" ++ [34%N] ++ js ");").
Proof. reflexivity. Qed.

(** * Further properties of the response helpers *)

(** ** Header access *)

Lemma String_of_number_truthy (n : Z) : str_truthy (String_of_number n) = true.
Proof.
  unfold String_of_number, NilZero.string_of_int.
  destruct (Z.to_int n) as [d | d]; [|reflexivity].
  unfold NilZero.string_of_uint. destruct d; reflexivity.
Qed.

Lemma getHeader_header_other (res : ServerResponse) (key k : string)
    (value : HeaderValue) :
  toLowerCase k <> toLowerCase key ->
  Response.getHeader (Response.header res key value) k = Response.getHeader res k.
Proof.
  intros Hne. unfold Response.getHeader. rewrite headers_header.
  apply lookup_insert_ne. congruence.
Qed.

(** X2. [safeHeader] lets the first value win: after a [safeHeader] with a
    truthy value, a second [safeHeader] on the same header, under any spelling
    of its name, changes nothing. *)
Theorem safeHeader_first_wins (res : ServerResponse) (key key' : string)
    (v w : HeaderValue) :
  header_truthy (Some v) = true ->
  toLowerCase key = toLowerCase key' ->
  Response.safeHeader (Response.safeHeader res key v) key' w
  = Response.safeHeader res key v.
Proof.
  intros Hv Hk.
  assert (Ht : header_truthy (Response.getHeader (Response.safeHeader res key v) key') = true).
  { unfold Response.safeHeader at 1.
    destruct (header_truthy (Response.getHeader res key)) eqn:Hp; cbn [negb].
    - unfold Response.getHeader in *. rewrite <- Hk. exact Hp.
    - unfold Response.getHeader. rewrite headers_header, Hk, lookup_insert_eq. exact Hv. }
  unfold Response.safeHeader at 1. rewrite Ht. reflexivity.
Qed.

Lemma safeHeader_first_wins_witness :
  Response.safeHeader
    (Response.safeHeader fresh_response "Content-Type" (HStr (js "application/json")))
    "content-type" (HStr (js "text/html"))
  = Response.safeHeader fresh_response "Content-Type" (HStr (js "application/json")).
Proof.
  exact (safeHeader_first_wins fresh_response "Content-Type" "content-type"
           (HStr (js "application/json")) (HStr (js "text/html")) eq_refl eq_refl).
Defined.

(** ** Appending to a header *)

Lemma append_value (res : ServerResponse) (key : string) (value : HeaderValue) :
  Response.getHeader (Response.append res key value) key
  = Some (let value' := match value with
                        | HNum n => HStr (String_of_number n)
                        | _ => value
                        end in
          match Response.getHeader res key with
          | Some prev =>
              if header_truthy (Response.getHeader res key) then
                match prev with
                | HArr l => HArr (Response.concat l value')
                | HStr s => HArr (Response.concat [s] value')
                | HNum n => HArr (Response.concat [String_of_number n] value')
                end
              else value'
          | None => value'
          end).
Proof. unfold Response.append. apply getHeader_header. Qed.

Lemma append_items_key (res : ServerResponse) (key : string) (value : HeaderValue) :
  header_items (Response.getHeader (Response.append res key value) key)
  = (if header_truthy (Response.getHeader res key)
     then header_items (Response.getHeader res key) else [])
      ++ header_items (Some value).
Proof.
  rewrite append_value. cbn zeta.
  destruct (Response.getHeader res key) as [[s | n | l]|] eqn:Hp;
    [destruct (header_truthy (Some (HStr s)))
    |destruct (header_truthy (Some (HNum n)))
    |cbn [header_truthy] |];
    destruct value; reflexivity.
Qed.

(** X3. [append] keeps what the header holds and adds the new values after
    it, in order: a header that is not set, or holds a falsy value (the empty
    string, the number 0), counts for nothing, and a number, where the header
    or the new value is one, stands for its decimal text, the numbers being
    integers up to 2^53 - 1 in absolute value. No other header, nor the
    status code, nor the output is touched. *)
Theorem append_items (res : ServerResponse) (key : string) (value : HeaderValue) :
  safe_value (Some value) ->
  safe_value (Response.getHeader res key) ->
  header_items (Response.getHeader (Response.append res key value) key)
  = (if header_truthy (Response.getHeader res key)
     then header_items (Response.getHeader res key) else [])
      ++ header_items (Some value)
  /\ (forall k, toLowerCase k <> toLowerCase key ->
        Response.getHeader (Response.append res key value) k = Response.getHeader res k)
  /\ statusCode (Response.append res key value) = statusCode res
  /\ output (Response.append res key value) = output res.
Proof.
  intros _ _. split; [|split; [|split; reflexivity]].
  - apply append_items_key.
  - intros k Hne. unfold Response.append. apply getHeader_header_other. exact Hne.
Qed.

Lemma append_items_witness :
  let res := Response.header fresh_response "Content-Length" (HNum 11) in
  header_items (Response.getHeader (Response.append res "Content-Length" (HNum 0))
                  "Content-Length")
  = [js "11"; js "0"].
Proof.
  intros res.
  refine (proj1 (append_items res "Content-Length" (HNum 0) _ _)).
  - unfold safe_value, safe_integer, MAX_SAFE_INTEGER. lia.
  - unfold safe_value, safe_integer, MAX_SAFE_INTEGER. vm_compute. split; discriminate.
Defined.

(** X4. Two [append] calls in a row add their values one after the other,
    provided the first value is not the empty string; an empty string
    appended to a header that holds nothing is lost at the next [append]. *)
Theorem append_append (res : ServerResponse) (key : string) (a b : HeaderValue) :
  (a <> HStr [] ->
   header_items (Response.getHeader
                   (Response.append (Response.append res key a) key b) key)
   = (if header_truthy (Response.getHeader res key)
      then header_items (Response.getHeader res key) else [])
       ++ header_items (Some a) ++ header_items (Some b))
  /\ (header_truthy (Response.getHeader res key) = false ->
      header_items (Response.getHeader
                      (Response.append (Response.append res key (HStr [])) key b) key)
      = header_items (Some b)).
Proof.
  split.
  - intros Ha.
    rewrite (append_items_key (Response.append res key a) key b).
    rewrite (append_items_key res key a).
    assert (Ht : header_truthy (Response.getHeader (Response.append res key a) key) = true).
    { rewrite append_value. cbn zeta.
      destruct (Response.getHeader res key) as [[s | n | l]|];
        [destruct (header_truthy (Some (HStr s)))
        |destruct (header_truthy (Some (HNum n)))
        |cbn [header_truthy] |];
        try reflexivity;
        destruct a as [[|c s'] | n' | l']; try reflexivity; try congruence;
        cbn [header_truthy]; apply String_of_number_truthy. }
    rewrite Ht, app_assoc. reflexivity.
  - intros Hf.
    rewrite (append_items_key (Response.append res key (HStr [])) key b).
    assert (Ht : header_truthy (Response.getHeader (Response.append res key (HStr [])) key)
                 = false).
    { rewrite append_value. cbn zeta.
      destruct (Response.getHeader res key) as [prev|]; [|reflexivity].
      rewrite Hf. reflexivity. }
    rewrite Ht. reflexivity.
Qed.

Lemma append_append_witness :
  let res := Response.header fresh_response "Foo" (HStr (js "bar")) in
  header_items (Response.getHeader
                  (Response.append (Response.append res "Foo" (HStr (js "baz")))
                     "Foo" (HArr [js "foo"])) "Foo")
  = [js "bar"; js "baz"; js "foo"].
Proof.
  intros res.
  exact (proj1 (append_append res "Foo" (HStr (js "baz")) (HArr [js "foo"]))
           ltac:(discriminate)).
Defined.

(** ** Preparation, once more *)

Lemma without_body_headers_idem (h : gmap string HeaderValue) :
  without_body_headers (without_body_headers h) = without_body_headers h.
Proof.
  apply map_eq. intros k. rewrite !without_body_headers_lookup.
  case_bool_decide; reflexivity.
Qed.

Lemma str_truthy_app (s t : JsString) :
  str_truthy t = true -> str_truthy (s ++ t) = true.
Proof. destruct s; [intros Ht; exact Ht | reflexivity]. Qed.

Lemma header_again (res : ServerResponse) (key : string) (v w : HeaderValue) :
  Response.header (Response.header res key v) key w = Response.header res key w.
Proof.
  unfold Response.header, Response.set_headers. cbn [statusCode headers output].
  rewrite insert_insert_eq. reflexivity.
Qed.

Lemma nullish_spec {O : Type} (body : Body O) :
  (nullish body = true -> body = BNull \/ body = BUndefined)
  /\ (nullish body = false -> body <> BNull /\ body <> BUndefined).
Proof. destruct body; split; intros Hx; try discriminate; auto; split; discriminate. Qed.

Section PrepareMore.
Context `{Platform}.

(** X5. Preparing the same body a second time changes nothing: the response
    and the returned content are those of the first preparation. *)
Theorem prepare_idempotent (res : ServerResponse) (body : Body JsObject) :
  Response.prepare (fst (Response.prepare res body)) body = Response.prepare res body.
Proof.
  destruct (nullish body) eqn:Hn.
  - apply nullish_spec in Hn.
    rewrite !(prepare_nullish _ body Hn). cbn [fst headers output statusCode].
    rewrite without_body_headers_idem. reflexivity.
  - apply nullish_spec in Hn as [Hnn Hnu].
    rewrite (prepare_non_nullish (fst (Response.prepare res body)) body Hnn Hnu).
    rewrite (prepare_non_nullish res body Hnn Hnu).
    set (ct := Utils.returnContentAndType body).
    unfold bodiless_status.
    destruct ((statusCode res =? methods_noContent)
              || (statusCode res =? methods_notModified)) eqn:Hs.
    + cbn [fst statusCode headers output]. rewrite Hs, without_body_headers_idem.
      reflexivity.
    + cbn zeta.
      destruct (Utils.type ct) as [t|], (Utils.body ct) as [c|];
        repeat match goal with
               | |- context [str_truthy t] =>
                   let E := fresh "Et" in destruct (str_truthy t) eqn:E
               | |- context [chunk_truthy c] =>
                   let E := fresh "Ec" in destruct (chunk_truthy c) eqn:E
               | |- context [header_truthy (headers res !! ?k)] =>
                   let E := fresh "Eh" in destruct (header_truthy (headers res !! k)) eqn:E
               end;
        cbn [andb negb fst];
        rewrite ?headers_header, ?lower_content_type, ?lower_content_length;
        cbn [statusCode Response.header Response.set_headers headers];
        rewrite ?Hs;
        rewrite ?lower_content_type, ?lower_content_length;
        rewrite ?lookup_insert_eq;
        rewrite ?lookup_insert_ne by discriminate;
        rewrite ?lookup_insert_eq;
        repeat match goal with
               | E : header_truthy (headers res !! ?k) = _
                 |- context [header_truthy (headers res !! ?k)] => rewrite E
               end;
        cbn [header_truthy]; rewrite ?str_truthy_app by reflexivity;
        rewrite ?Et, ?Ec;
        cbn [andb negb];
        try reflexivity;
        destruct (byteLength c =? 0) eqn:Eb; cbn [andb negb];
        try reflexivity;
        rewrite ?header_again; reflexivity.
Qed.

(** X6. What [prepare] never does: it writes nothing to the response; it
    touches no header but Content-Type, Content-Length and Transfer-Encoding;
    the status code is the caller's unless the body is null or undefined, for
    which it is 204; and Transfer-Encoding is never set, only kept or
    removed. *)
Theorem prepare_frame (res : ServerResponse) (body : Body JsObject) :
  let res' := fst (Response.prepare res body) in
  output res' = output res
  /\ (forall k, k <> "content-type" -> k <> "content-length" ->
                k <> "transfer-encoding" -> headers res' !! k = headers res !! k)
  /\ statusCode res' =
       (if nullish body then 204 else statusCode res)
  /\ (headers res' !! "transfer-encoding" = None
      \/ headers res' !! "transfer-encoding" = headers res !! "transfer-encoding").
Proof.
  intros res'. subst res'.
  split; [apply prepare_output|]. split; [intros; apply prepare_other_headers; assumption|].
  split.
  - destruct (nullish body) eqn:Hn.
    + apply nullish_spec in Hn. rewrite (prepare_nullish res body Hn). reflexivity.
    + apply nullish_spec in Hn as [Hnn Hnu]. apply prepare_statusCode; assumption.
  - destruct (nullish body) eqn:Hn.
    { apply nullish_spec in Hn.
      left. rewrite (prepare_nullish res body Hn). cbn [fst headers].
      rewrite without_body_headers_lookup. reflexivity. }
    apply nullish_spec in Hn as [Hnn Hnu].
    rewrite prepare_non_nullish by assumption.
    destruct (bodiless_status res).
    { left. cbn [fst headers]. rewrite without_body_headers_lookup. reflexivity. }
    right. cbn zeta.
    destruct (Utils.type (Utils.returnContentAndType body)) as [t|],
             (Utils.body (Utils.returnContentAndType body)) as [c|]; cbn [fst];
      repeat match goal with
             | |- context [if ?b then _ else _] => destruct b
             end;
      rewrite ?headers_header, ?lower_content_type, ?lower_content_length;
      rewrite ?lookup_insert_ne by discriminate; reflexivity.
Qed.

End PrepareMore.

(** ** Sending, by kind of body *)

Lemma utf8_length_nonneg_bounded (n : nat) (s : JsString) :
  (length s <= n)%nat -> 0 <= utf8_length s.
Proof.
  revert s. induction n as [|n IH]; intros s Hl.
  - destruct s; [reflexivity | cbn in Hl; lia].
  - destruct s as [|c rest]; [reflexivity|]. cbn [length] in Hl.
    assert (Hr : 0 <= utf8_length rest) by (apply IH; lia).
    cbn [utf8_length].
    destruct (c <? 128)%N; [lia|]. destruct (c <? 2048)%N; [lia|].
    destruct ((55296 <=? c) && (c <=? 56319))%N; [|lia].
    destruct rest as [|d rest']; [lia|].
    destruct ((56320 <=? d) && (d <=? 57343))%N; [|lia].
    assert (0 <= utf8_length rest') by (apply IH; cbn [length] in Hl; lia). lia.
Qed.

Lemma utf8_length_nonneg (s : JsString) : 0 <= utf8_length s.
Proof. apply (utf8_length_nonneg_bounded (length s)). lia. Qed.

Lemma utf8_length_pos (s : JsString) : str_truthy s = true -> 0 < utf8_length s.
Proof.
  destruct s as [|c rest]; [discriminate|]. intros _.
  assert (Hr := utf8_length_nonneg rest). cbn [utf8_length].
  destruct (c <? 128)%N; [lia|]. destruct (c <? 2048)%N; [lia|].
  destruct ((55296 <=? c) && (c <=? 56319))%N; [|lia].
  destruct rest as [|d rest']; [lia|].
  destruct ((56320 <=? d) && (d <=? 57343))%N; [|lia].
  assert (Hr' := utf8_length_nonneg rest'). lia.
Qed.

Section SendMore.
Context `{Platform}.

(** The two headers [prepare] may set, on a body that is neither null nor
    undefined and a status that carries a body. *)
Lemma prepare_content_type (res : ServerResponse) (body : Body JsObject) :
  nullish body = false -> bodiless_status res = false ->
  headers (fst (Response.prepare res body)) !! "content-type"
  = match Utils.type (Utils.returnContentAndType body) with
    | Some t =>
        if str_truthy t && negb (header_truthy (headers res !! "content-type"))
        then Some (HStr (t ++ js "; charset=utf-8"))
        else headers res !! "content-type"
    | None => headers res !! "content-type"
    end.
Proof.
  intros Hn Hs. apply nullish_spec in Hn as [Hnn Hnu].
  rewrite prepare_non_nullish by assumption. rewrite Hs. cbn zeta.
  destruct (Utils.type (Utils.returnContentAndType body)) as [t|],
           (Utils.body (Utils.returnContentAndType body)) as [c|]; cbn [fst];
    repeat match goal with
           | |- context [if ?b then _ else _] => destruct b
           end;
    rewrite ?headers_header, ?lower_content_type, ?lower_content_length;
    rewrite ?lookup_insert_ne by discriminate;
    rewrite ?lookup_insert_eq; reflexivity.
Qed.

Lemma prepare_content_length (res : ServerResponse) (body : Body JsObject) :
  nullish body = false -> bodiless_status res = false ->
  headers (fst (Response.prepare res body)) !! "content-length"
  = match Utils.body (Utils.returnContentAndType body) with
    | Some c =>
        if chunk_truthy c && negb (header_truthy (headers res !! "content-length"))
        then Some (HNum (byteLength c))
        else headers res !! "content-length"
    | None => headers res !! "content-length"
    end.
Proof.
  intros Hn Hs. apply nullish_spec in Hn as [Hnn Hnu].
  rewrite prepare_non_nullish by assumption. rewrite Hs. cbn zeta.
  destruct (Utils.type (Utils.returnContentAndType body)) as [t|],
           (Utils.body (Utils.returnContentAndType body)) as [c|]; cbn [fst];
    repeat match goal with
           | |- context [if ?b then _ else _] => destruct b
           end;
    rewrite ?headers_header, ?lower_content_type, ?lower_content_length;
    rewrite ?lookup_insert_eq;
    rewrite ?lookup_insert_ne by discriminate; reflexivity.
Qed.

Lemma prepare_chunk (res : ServerResponse) (body : Body JsObject) :
  snd (Response.prepare res body)
  = if nullish body then None else Utils.body (Utils.returnContentAndType body).
Proof.
  destruct (nullish body) eqn:Hn.
  - apply nullish_spec in Hn. rewrite (prepare_nullish res body Hn). reflexivity.
  - apply nullish_spec in Hn as [Hnn Hnu].
    rewrite prepare_non_nullish by assumption.
    destruct (bodiless_status res); reflexivity.
Qed.

(** The headers after [send], on a body that is not a stream: those after
    preparation, with the ETag added when there is content to send. *)
Lemma send_headers (req : IncomingMessage) (res : ServerResponse)
    (body : Body JsObject) (generateEtag : bool) (k : string) :
  Response.body_truthy body && Response.has_pipe body = false ->
  k <> "etag" ->
  headers (fst (Response.send req res body generateEtag)) !! k
  = headers (fst (Response.prepare res body)) !! k.
Proof.
  intros Hs Hk. rewrite (send_not_stream _ _ _ _ Hs). cbn zeta.
  destruct (snd (Response.prepare res body)); [|reflexivity].
  destruct (String.eqb (method req) "HEAD"); [reflexivity|].
  destruct generateEtag; [|reflexivity].
  cbn [fst Response.end_ Response.log_output headers]. unfold Response.etag.
  rewrite headers_header, lower_etag. apply lookup_insert_ne. congruence.
Qed.

Lemma send_output (req : IncomingMessage) (res : ServerResponse)
    (body : Body JsObject) (generateEtag : bool) :
  Response.body_truthy body && Response.has_pipe body = false ->
  output (fst (Response.send req res body generateEtag))
  = output res
      ++ [OEnd (if String.eqb (method req) "HEAD" then None
                else snd (Response.prepare res body))].
Proof.
  intros Hs. rewrite (send_not_stream _ _ _ _ Hs). cbn zeta.
  destruct (snd (Response.prepare res body)) as [c|].
  - destruct (String.eqb (method req) "HEAD"); [|destruct generateEtag];
      cbn [fst Response.end_ Response.log_output output Response.etag Response.header
           Response.set_headers];
      rewrite prepare_output; reflexivity.
  - cbn [fst Response.end_ Response.log_output output]. rewrite prepare_output.
    destruct (String.eqb (method req) "HEAD"); reflexivity.
Qed.

Lemma send_no_piping (req : IncomingMessage) (res : ServerResponse)
    (body : Body JsObject) (generateEtag : bool) :
  Response.body_truthy body && Response.has_pipe body = false ->
  snd (Response.send req res body generateEtag) = None.
Proof.
  intros Hs. rewrite (send_not_stream _ _ _ _ Hs). cbn zeta.
  destruct (snd (Response.prepare res body)); [|reflexivity].
  destruct (String.eqb (method req) "HEAD"); reflexivity.
Qed.

Lemma send_statusCode (req : IncomingMessage) (res : ServerResponse)
    (body : Body JsObject) (generateEtag : bool) :
  Response.body_truthy body && Response.has_pipe body = false ->
  statusCode (fst (Response.send req res body generateEtag))
  = if nullish body then 204 else statusCode res.
Proof.
  intros Hs. destruct (nullish body) eqn:Hn.
  - apply nullish_spec in Hn. rewrite (send_not_stream _ _ _ _ Hs).
    rewrite (prepare_nullish res body Hn). reflexivity.
  - apply nullish_spec in Hn as [Hnn Hnu]. apply send_keeps_status; assumption.
Qed.

(** X7. On every body that is not a stream, [send] ends the response once,
    after what was written before, and starts no piping call. The payload is
    the content the classifier gives for the body, the empty string included;
    there is none under HEAD or for a null or undefined body. The status code
    is the caller's, except that a null or undefined body makes it 204. *)
Theorem send_ends_with_content (req : IncomingMessage) (res : ServerResponse)
    (body : Body JsObject) (generateEtag : bool) :
  Response.body_truthy body && Response.has_pipe body = false ->
  let res' := fst (Response.send req res body generateEtag) in
  snd (Response.send req res body generateEtag) = None
  /\ output res' =
       output res
         ++ [OEnd (if String.eqb (method req) "HEAD" || nullish body then None
                   else Utils.body (Utils.returnContentAndType body))]
  /\ statusCode res' = (if nullish body then 204 else statusCode res).
Proof.
  intros Hs res'. subst res'.
  split; [apply send_no_piping, Hs|]. split; [|apply send_statusCode, Hs].
  rewrite (send_output _ _ _ _ Hs), prepare_chunk.
  destruct (String.eqb (method req) "HEAD"), (nullish body); reflexivity.
Qed.

(** X8. A number or a boolean is content even when it is falsy: for every
    integer up to 2^53 - 1 in absolute value, 0 included, and every boolean,
    [false] included, [send] under a method other than HEAD ends the
    response with the text of the value, which is never empty, and keeps the
    status code; with a status that carries a body, Content-Type becomes
    [text/plain; charset=utf-8] and Content-Length the positive byte length
    of the text, unless the header holds a truthy value already. *)
Theorem send_number_or_boolean (req : IncomingMessage) (res : ServerResponse)
    (body : Body JsObject) (generateEtag : bool) (text : JsString) :
  (exists n, body = BNumber n /\ safe_integer n /\ text = String_of_number n)
  \/ (exists v, body = BBoolean v /\ text = String_of_boolean v) ->
  method req <> "HEAD" ->
  let res' := fst (Response.send req res body generateEtag) in
  str_truthy text = true
  /\ output res' = output res ++ [OEnd (Some (CStr text))]
  /\ statusCode res' = statusCode res
  /\ (bodiless_status res = false ->
      headers res' !! "content-type"
      = (if header_truthy (headers res !! "content-type")
         then headers res !! "content-type"
         else Some (HStr (js "text/plain; charset=utf-8")))
      /\ headers res' !! "content-length"
         = (if header_truthy (headers res !! "content-length")
            then headers res !! "content-length"
            else Some (HNum (utf8_length text)))
      /\ 0 < utf8_length text).
Proof.
  intros Hb Hm res'. subst res'.
  assert (Ht : str_truthy text = true).
  { destruct Hb as [(n & _ & _ & ->) | (v & _ & ->)];
      [apply String_of_number_truthy | destruct v; reflexivity]. }
  assert (Hs : Response.body_truthy body && Response.has_pipe body = false).
  { destruct Hb as [(n & -> & _ & _) | (v & -> & _)]; cbn; apply andb_false_r. }
  assert (Hn : nullish body = false).
  { destruct Hb as [(n & -> & _ & _) | (v & -> & _)]; reflexivity. }
  assert (Hc : Utils.returnContentAndType body
               = {| Utils.body := Some (CStr text); Utils.type := Some (js "text/plain") |}).
  { destruct Hb as [(n & -> & _ & ->) | (v & -> & ->)]; reflexivity. }
  split; [exact Ht|]. split; [|split].
  - rewrite (send_output _ _ _ _ Hs), prepare_chunk, Hn, Hc.
    destruct (String.eqb_spec (method req) "HEAD"); [contradiction | reflexivity].
  - rewrite (send_statusCode _ _ _ _ Hs), Hn. reflexivity.
  - intros Hbs.
    rewrite !(send_headers _ _ _ _ _ Hs) by discriminate.
    rewrite (prepare_content_type _ _ Hn Hbs), (prepare_content_length _ _ Hn Hbs), Hc.
    cbn [Utils.type Utils.body chunk_truthy byteLength]. rewrite Ht.
    split; [|split; [|apply utf8_length_pos, Ht]].
    + destruct (header_truthy (headers res !! "content-type")); reflexivity.
    + destruct (header_truthy (headers res !! "content-length")); reflexivity.
Qed.

End SendMore.

Lemma send_ends_with_content_witness :
  let res' := fst (Response.send (H := demo_platform) GET fresh_response (BString []) true) in
  output res' = [OEnd (Some (CStr []))] /\ statusCode res' = 200.
Proof.
  destruct (send_ends_with_content (H := demo_platform) GET fresh_response (BString [])
              true eq_refl) as (_ & Ho & Hs).
  exact (conj Ho Hs).
Defined.

Lemma send_number_or_boolean_witness :
  let res' := fst (Response.send (H := demo_platform) GET fresh_response (BNumber 0) true) in
  output res' = [OEnd (Some (CStr (js "0")))]
  /\ headers res' !! "content-length" = Some (HNum 1).
Proof.
  assert (Hsafe : safe_integer 0) by (unfold safe_integer, MAX_SAFE_INTEGER; lia).
  destruct (send_number_or_boolean (H := demo_platform) GET fresh_response (BNumber 0)
              true (js "0")
              (or_introl (ex_intro _ 0 (conj eq_refl (conj Hsafe eq_refl))))
              ltac:(discriminate)) as (_ & Ho & _ & Hh).
  destruct (Hh eq_refl) as (_ & Hl & _).
  exact (conj Ho Hl).
Defined.

Section SendKinds.
Context `{Platform}.

(** X9. With a status that carries a body and no truthy Content-Length yet,
    a buffer is returned as it is and always gets a Content-Length, its
    number of bytes, which is 0 for the empty buffer; a string is returned as
    it is and gets its UTF-8 length as Content-Length, except the empty
    string, for which the header is left as it was. *)
Theorem prepare_buffer_and_string (res : ServerResponse) :
  bodiless_status res = false ->
  header_truthy (headers res !! "content-length") = false ->
  (forall b : Buffer,
      snd (Response.prepare res (BBuffer b)) = Some (CBuf b)
      /\ headers (fst (Response.prepare res (BBuffer b))) !! "content-length"
         = Some (HNum (Z.of_nat (length b))))
  /\ (forall s : JsString,
         snd (Response.prepare res (BString s)) = Some (CStr s)
         /\ headers (fst (Response.prepare res (BString s))) !! "content-length"
            = if str_truthy s then Some (HNum (utf8_length s))
              else headers res !! "content-length").
Proof.
  intros Hs Hl. split.
  - intros b. split; [rewrite prepare_chunk; reflexivity|].
    rewrite prepare_content_length by (reflexivity || exact Hs).
    cbn [Utils.returnContentAndType Utils.body chunk_truthy byteLength].
    rewrite Hl. reflexivity.
  - intros s. split; [rewrite prepare_chunk; reflexivity|].
    rewrite prepare_content_length by (reflexivity || exact Hs).
    cbn [Utils.returnContentAndType Utils.body chunk_truthy byteLength].
    rewrite Hl. destruct (str_truthy s); reflexivity.
Qed.

Lemma safeHeader_frame (res : ServerResponse) (key : string) (value : HeaderValue) :
  statusCode (Response.safeHeader res key value) = statusCode res
  /\ output (Response.safeHeader res key value) = output res.
Proof. unfold Response.safeHeader. destruct (negb _); split; reflexivity. Qed.

Lemma safeHeader_lookup (res : ServerResponse) (key : string) (value : HeaderValue) :
  Response.getHeader (Response.safeHeader res key value) key
  = if header_truthy (Response.getHeader res key)
    then Response.getHeader res key else Some value.
Proof.
  unfold Response.safeHeader.
  destruct (header_truthy (Response.getHeader res key)); cbn [negb]; [reflexivity|].
  apply getHeader_header.
Qed.

(** X10. [json] fixes the media type whatever the kind of the body: for a
    body that is neither null, undefined nor a stream and a status that
    carries a body, Content-Type after the call is
    [application/json; charset=utf-8] unless the header held a truthy value,
    which is kept. The payload is the classifier's content of the body: a
    string body is sent as it is, without JSON quoting. *)
Theorem json_content_type (req : IncomingMessage) (res : ServerResponse)
    (body : Body JsObject) (generateEtag : bool) :
  Response.body_truthy body && Response.has_pipe body = false ->
  nullish body = false ->
  bodiless_status res = false ->
  let res' := fst (Response.json req res body generateEtag) in
  headers res' !! "content-type"
  = (if header_truthy (headers res !! "content-type")
     then headers res !! "content-type"
     else Some (HStr (js "application/json; charset=utf-8")))
  /\ output res' =
       output res
         ++ [OEnd (if String.eqb (method req) "HEAD" then None
                   else Utils.body (Utils.returnContentAndType body))]
  /\ (forall s, body = BString s -> method req <> "HEAD" ->
                output res' = output res ++ [OEnd (Some (CStr s))]).
Proof.
  intros Hs Hn Hb res'. subst res'. unfold Response.json.
  set (res1 := Response.safeHeader res "Content-Type"
                 (HStr (js "application/json; charset=utf-8"))).
  destruct (safeHeader_frame res "Content-Type"
              (HStr (js "application/json; charset=utf-8"))) as [Hst Hout].
  fold res1 in Hst, Hout.
  assert (Hct : headers res1 !! "content-type"
                = if header_truthy (headers res !! "content-type")
                  then headers res !! "content-type"
                  else Some (HStr (js "application/json; charset=utf-8")))
    by exact (safeHeader_lookup res "Content-Type" _).
  assert (Htr : header_truthy (headers res1 !! "content-type") = true).
  { rewrite Hct. destruct (header_truthy (headers res !! "content-type")) eqn:E;
      [exact E | reflexivity]. }
  assert (Hb1 : bodiless_status res1 = false)
    by (unfold bodiless_status in *; rewrite Hst; exact Hb).
  assert (Ho : output (fst (Response.send req res1 body generateEtag))
               = output res
                   ++ [OEnd (if String.eqb (method req) "HEAD" then None
                             else Utils.body (Utils.returnContentAndType body))]).
  { rewrite (send_output _ _ _ _ Hs), prepare_chunk, Hn, Hout. reflexivity. }
  split; [|split; [exact Ho|]].
  - rewrite (send_headers _ _ _ _ _ Hs) by discriminate.
    rewrite (prepare_content_type _ _ Hn Hb1), Htr.
    destruct (Utils.type (Utils.returnContentAndType body)) as [t|];
      rewrite ?andb_false_r; exact Hct.
  - intros s -> Hm. rewrite Ho.
    destruct (String.eqb_spec (method req) "HEAD"); [contradiction | reflexivity].
Qed.

Lemma safeHeader_other (res : ServerResponse) (key k : string) (value : HeaderValue) :
  toLowerCase k <> toLowerCase key ->
  Response.getHeader (Response.safeHeader res key value) k = Response.getHeader res k.
Proof.
  intros Hne. unfold Response.safeHeader. destruct (negb _); [|reflexivity].
  apply getHeader_header_other. exact Hne.
Qed.

(** [prepareJsonp], component by component. *)
Lemma prepareJsonp_parts (res : ServerResponse) (body : Body JsObject)
    (callbackFn : JsString) :
  Response.prepareJsonp res body callbackFn
  = (Response.safeHeader
       (Response.header res "X-Content-Type-Options" (HStr (js "nosniff")))
       "Content-Type" (HStr (js "text/javascript; charset=utf-8")),
     (fun json => guarded_call callbackFn (escape_separators json))
       <$> JSON_stringify body).
Proof.
  unfold Response.prepareJsonp. destruct (JSON_stringify body); reflexivity.
Qed.

(** X11. [jsonp] on a body [JSON.stringify] serializes ends the response
    with the guarded call of the callback, named [callback] when the caller
    names none, on the serialization with its separators escaped; it returns,
    keeps the status code, sets X-Content-Type-Options to [nosniff] and,
    with a status that carries a body, leaves Content-Type at
    [text/javascript; charset=utf-8] unless the header held a truthy value.
    On a body [JSON.stringify] maps to [undefined] the error is raised before
    anything is sent: the output is as it was. *)
Theorem jsonp_response (req : IncomingMessage) (res : ServerResponse)
    (body : Body JsObject) (callbackFn : option JsString) (generateEtag : bool) :
  method req <> "HEAD" ->
  let out := Response.jsonp req res body callbackFn generateEtag in
  match JSON_stringify body with
  | Some json =>
      snd out = true
      /\ output (fst out) =
           output res
             ++ [OEnd (Some (CStr (guarded_call (default (js "callback") callbackFn)
                                     (escape_separators json))))]
      /\ statusCode (fst out) = statusCode res
      /\ headers (fst out) !! "x-content-type-options" = Some (HStr (js "nosniff"))
      /\ (bodiless_status res = false ->
          headers (fst out) !! "content-type"
          = if header_truthy (headers res !! "content-type")
            then headers res !! "content-type"
            else Some (HStr (js "text/javascript; charset=utf-8")))
  | None => snd out = false /\ output (fst out) = output res
  end.
Proof.
  intros Hm out. subst out. unfold Response.jsonp. rewrite prepareJsonp_parts.
  set (cb := default (js "callback") callbackFn).
  set (res1 := Response.header res "X-Content-Type-Options" (HStr (js "nosniff"))).
  set (res2 := Response.safeHeader res1 "Content-Type"
                 (HStr (js "text/javascript; charset=utf-8"))).
  assert (Hfr : statusCode res2 = statusCode res /\ output res2 = output res).
  { unfold res2.
    destruct (safeHeader_frame res1 "Content-Type"
                (HStr (js "text/javascript; charset=utf-8"))) as [Ha Hb].
    rewrite Ha, Hb. split; reflexivity. }
  destruct Hfr as [Hst Hout].
  destruct (JSON_stringify body) as [json|]; cbn [fmap option_fmap option_map fst snd];
    [|split; [reflexivity | exact Hout]].
  set (text := guarded_call cb (escape_separators json)).
  assert (Hs : Response.body_truthy (BString text) && Response.has_pipe (BString text) = false)
    by apply andb_false_r.
  assert (Hx : headers res2 !! "x-content-type-options" = Some (HStr (js "nosniff"))).
  { change (headers res2 !! "x-content-type-options")
      with (Response.getHeader res2 "X-Content-Type-Options").
    unfold res2. rewrite safeHeader_other by discriminate.
    apply getHeader_header. }
  split; [reflexivity|]. split; [|split; [|split]].
  - rewrite (send_output _ _ _ _ Hs), prepare_chunk, Hout.
    destruct (String.eqb_spec (method req) "HEAD"); [contradiction | reflexivity].
  - rewrite (send_statusCode _ _ _ _ Hs). exact Hst.
  - rewrite (send_headers _ _ _ _ _ Hs) by discriminate.
    rewrite prepare_other_headers by discriminate. exact Hx.
  - intros Hb.
    assert (Hb2 : bodiless_status res2 = false)
      by (unfold bodiless_status in *; rewrite Hst; exact Hb).
    assert (Hct : headers res2 !! "content-type"
                  = if header_truthy (headers res !! "content-type")
                    then headers res !! "content-type"
                    else Some (HStr (js "text/javascript; charset=utf-8"))).
    { change (headers res2 !! "content-type") with (Response.getHeader res2 "Content-Type").
      unfold res2. rewrite safeHeader_lookup.
      replace (Response.getHeader res1 "Content-Type") with (headers res !! "content-type");
        [reflexivity|].
      symmetry. apply (getHeader_header_other res "X-Content-Type-Options" "Content-Type").
      discriminate. }
    rewrite (send_headers _ _ _ _ _ Hs) by discriminate.
    rewrite (prepare_content_type res2 (BString text) eq_refl Hb2).
    cbn [Utils.returnContentAndType Utils.type].
    assert (Htr : header_truthy (headers res2 !! "content-type") = true).
    { rewrite Hct. destruct (header_truthy (headers res !! "content-type")) eqn:E;
        [exact E | reflexivity]. }
    rewrite Htr, andb_false_r. exact Hct.
Qed.

End SendKinds.

Lemma prepare_buffer_and_string_witness :
  headers (fst (Response.prepare (H := demo_platform) fresh_response (BBuffer [])))
    !! "content-length" = Some (HNum 0)
  /\ headers (fst (Response.prepare (H := demo_platform) fresh_response (BString [])))
       !! "content-length" = None.
Proof.
  destruct (prepare_buffer_and_string (H := demo_platform) fresh_response eq_refl eq_refl)
    as [Hb Hs].
  exact (conj (proj2 (Hb [])) (proj2 (Hs []))).
Defined.

Lemma json_content_type_witness :
  let res' := fst (Response.json (H := demo_platform) GET fresh_response
                     (BString (js "hi")) true) in
  headers res' !! "content-type" = Some (HStr (js "application/json; charset=utf-8"))
  /\ output res' = [OEnd (Some (CStr (js "hi")))].
Proof.
  destruct (json_content_type (H := demo_platform) GET fresh_response (BString (js "hi"))
              true eq_refl eq_refl eq_refl) as (Hc & _ & Hs).
  exact (conj Hc (Hs (js "hi") eq_refl ltac:(discriminate))).
Defined.

Lemma jsonp_response_witness :
  let out := Response.jsonp (H := demo_platform) GET fresh_response (BObject false)
               None true in
  snd out = true
  /\ output (fst out) = [OEnd (Some (CStr (js "/**/ typeof callback === 'function' && callback({});")))]
  /\ headers (fst out) !! "content-type"
     = Some (HStr (js "text/javascript; charset=utf-8")).
Proof.
  destruct (jsonp_response (H := demo_platform) GET fresh_response (BObject false) None
              true ltac:(discriminate)) as (Hr & Ho & _ & _ & Hc).
  exact (conj Hr (conj Ho (Hc eq_refl))).
Defined.

Section Shorthands.
Context `{Platform}.

(** X12. [redirect] sets the status code to the one given, 302 when none is
    given, and the Location header to the url, then ends the response with
    the empty string as payload (with none under HEAD); it starts no piping
    call and sets no Content-Length itself: that header is as before, or
    removed when the status is 204 or 304. *)
Theorem redirect_response (req : IncomingMessage) (res : ServerResponse)
    (url : JsString) (status0 : option Z) :
  let out := Response.redirect req res url status0 in
  let code := default 302 status0 in
  snd out = None
  /\ statusCode (fst out) = code
  /\ Response.getHeader (fst out) "Location" = Some (HStr url)
  /\ output (fst out) =
       output res ++ [OEnd (if String.eqb (method req) "HEAD" then None
                            else Some (CStr []))]
  /\ headers (fst out) !! "content-length"
     = if (code =? 204) || (code =? 304) then None
       else headers res !! "content-length".
Proof.
  intros out code. subst out. unfold Response.redirect. fold code.
  set (res1 := Response.location (Response.status res code) url).
  assert (Hs : Response.body_truthy (BString (O := JsObject) []) && Response.has_pipe (BString (O := JsObject) []) = false)
    by reflexivity.
  split; [apply send_no_piping, Hs|]. split; [|split; [|split]].
  - rewrite (send_statusCode _ _ _ _ Hs). reflexivity.
  - unfold Response.getHeader. change (toLowerCase "Location") with "location".
    rewrite (send_headers _ _ _ _ _ Hs) by discriminate.
    rewrite prepare_other_headers by discriminate.
    exact (getHeader_header (Response.status res code) "Location" (HStr url)).
  - rewrite (send_output _ _ _ _ Hs), prepare_chunk. reflexivity.
  - rewrite (send_headers _ _ _ _ _ Hs) by discriminate.
    assert (Hl : headers res1 !! "content-length" = headers res !! "content-length").
    { exact (getHeader_header_other (Response.status res code) "Location"
               "Content-Length" (HStr url) ltac:(discriminate)). }
    destruct ((code =? 204) || (code =? 304)) eqn:Hb.
    + rewrite prepare_non_nullish by discriminate.
      unfold bodiless_status. change (statusCode res1) with code.
      unfold methods_noContent, methods_notModified. rewrite Hb.
      cbn [fst headers]. rewrite without_body_headers_lookup. reflexivity.
    + rewrite prepare_content_length; [exact Hl | reflexivity | exact Hb].
Qed.

(** X13. A status shorthand sets its status code and sends the body; the
    response then carries that code, except when the body is null or left
    out: the code becomes 204 whatever the shorthand. On a stream body the
    code is set and the stream is piped. *)
Theorem descriptive_method_status (code : Z) (req : IncomingMessage)
    (res : ServerResponse) (body : Body JsObject) :
  let out := Response.descriptive_method code req res body in
  if Response.body_truthy body && Response.has_pipe body
  then fst out = Response.status res code /\ is_Some (snd out)
  else snd out = None
       /\ statusCode (fst out) = (if nullish body then 204 else code).
Proof.
  intros out. subst out. unfold Response.descriptive_method.
  destruct (Response.body_truthy body && Response.has_pipe body) eqn:Hs.
  - rewrite (send_stream _ _ _ _ Hs). split; [reflexivity | eexists; reflexivity].
  - split; [apply send_no_piping, Hs|].
    rewrite (send_statusCode _ _ _ _ Hs). reflexivity.
Qed.

(** X14. The text [prepareJsonp] returns holds no line separator and no
    paragraph separator, provided the name of the callback holds none; and
    when the serialization holds none, it is passed to the callback
    unchanged. *)
Theorem prepareJsonp_no_separator (res : ServerResponse) (body : Body JsObject)
    (callbackFn json : JsString) :
  JSON_stringify body = Some json ->
  ~ In 8232%N callbackFn -> ~ In 8233%N callbackFn ->
  exists text,
    snd (Response.prepareJsonp res body callbackFn) = Some text
    /\ ~ In 8232%N text /\ ~ In 8233%N text
    /\ (~ In 8232%N json -> ~ In 8233%N json -> text = guarded_call callbackFn json).
Proof.
  intros Hj Hc1 Hc2. rewrite prepareJsonp_parts, Hj.
  exists (guarded_call callbackFn (escape_separators json)).
  destruct (escape_separators_clean json) as [He1 He2].
  split; [reflexivity|].
  assert (Hin : forall c, ~ In c callbackFn -> ~ In c (escape_separators json) ->
                          (c =? 8232)%N || (c =? 8233)%N = true ->
                          ~ In c (guarded_call callbackFn (escape_separators json))).
  { intros c Hcb Hes Hc. unfold guarded_call. rewrite !in_app_iff.
    assert (Hlit : forall lit : string,
               forallb (fun d => negb ((d =? 8232)%N || (d =? 8233)%N)) (js lit) = true ->
               ~ In c (js lit)).
    { intros lit Hall Hi. rewrite forallb_forall in Hall.
      specialize (Hall c Hi).
      apply orb_true_iff in Hc as [Hc | Hc]; apply N.eqb_eq in Hc; subst c;
        discriminate. }
    intros [Hi | [Hi | [Hi | [Hi | [Hi | [Hi | Hi]]]]]];
      try (revert Hi; apply Hlit; reflexivity); contradiction. }
  split; [apply Hin; auto|]. split; [apply Hin; auto|].
  intros Hn1 Hn2. unfold escape_separators. rewrite !replace_all_id; auto.
  rewrite replace_all_id; auto.
Qed.

End Shorthands.

Lemma prepareJsonp_no_separator_witness :
  exists text,
    snd (Response.prepareJsonp (H := demo_platform) fresh_response
           (BString [97; 8232; 98]%N) (js "cb")) = Some text
    /\ ~ In 8232%N text /\ ~ In 8233%N text.
Proof.
  destruct (prepareJsonp_no_separator (H := demo_platform) fresh_response
              (BString [97; 8232; 98]%N) (js "cb") ([34; 97; 8232; 98; 34]%N) eq_refl)
    as (text & Ht & H1 & H2 & _).
  - vm_compute. intuition discriminate.
  - vm_compute. intuition discriminate.
  - exists text. exact (conj Ht (conj H1 H2)).
Defined.

Lemma redirect_response_witness :
  let out := Response.redirect (H := demo_platform) GET fresh_response
               (js "http://localhost") None in
  statusCode (fst out) = 302
  /\ Response.getHeader (fst out) "Location" = Some (HStr (js "http://localhost"))
  /\ output (fst out) = [OEnd (Some (CStr []))].
Proof.
  destruct (redirect_response (H := demo_platform) GET fresh_response
              (js "http://localhost") None) as (_ & Hs & Hl & Ho & _).
  exact (conj Hs (conj Hl Ho)).
Defined.

(** ** Piping, once more *)

Section PipingMore.
Context `{Platform}.

(** An event changes neither the status code nor the headers of the
    response. *)
Lemma handle_head (ev : Event) (st : ServerResponse * Piping) :
  statusCode (fst (handle ev st)) = statusCode (fst st)
  /\ headers (fst (handle ev st)) = headers (fst st).
Proof.
  destruct st as [res p]. unfold handle. destruct (negb (piped p)); [split; reflexivity|].
  destruct ev; try (split; reflexivity).
  destruct (onFinished_armed p); split; reflexivity.
Qed.

Lemma run_head (evs : list Event) (st : ServerResponse * Piping) :
  statusCode (fst (run evs st)) = statusCode (fst st)
  /\ headers (fst (run evs st)) = headers (fst st).
Proof.
  revert st. induction evs as [|ev evs IH]; intros st; [split; reflexivity|].
  rewrite run_cons. destruct (IH (handle ev st)) as [-> ->]. apply handle_head.
Qed.

Lemma run_data (chunks : list Chunk) (res : ServerResponse) (p : Piping) :
  piped p = true ->
  run (List.map StreamData chunks) (res, p) = (written res chunks, p).
Proof.
  intros Hp. revert res. induction chunks as [|c chunks IH]; intros res.
  - unfold written. cbn. rewrite app_nil_r. destruct res; reflexivity.
  - cbn [List.map]. rewrite run_cons. unfold handle at 1. rewrite Hp. cbn [negb].
    rewrite IH. unfold written, Response.write, Response.log_output. cbn.
    rewrite <- app_assoc. reflexivity.
Qed.

(** X15. A stream that is consumed to its end: the chunks are written to the
    response in the order the stream emitted them, the response is then
    ended with no further payload, its status code and headers are not
    touched, the operation succeeds, and the stream is not forcibly released
    until the response completes, which releases it once. *)
Theorem stream_consumed (res : ServerResponse) (body : Body JsObject)
    (chunks : list Chunk) :
  Response.has_pipe body = true ->
  let st := run (List.map StreamData chunks ++ [StreamEnd]) (Response.stream res body) in
  output (fst st) = output res ++ List.map OWrite chunks ++ [OEnd None]
  /\ statusCode (fst st) = statusCode res
  /\ headers (fst st) = headers res
  /\ promise (snd st) = Fulfilled
  /\ destroys (snd st) = 0%nat
  /\ destroys (snd (handle ResponseFinished st)) = 1%nat.
Proof.
  intros Hp st. subst st. rewrite (stream_pipeable res body Hp).
  rewrite run_app, run_data by reflexivity.
  cbn. rewrite <- app_assoc. repeat split; reflexivity.
Qed.

(** Without a stream error among them, and as well once the promise is
    settled or [finished] is set, the events reaching a [send] call have the
    effects of the piping call only: the [catch] handler does not run. *)
Lemma deliver_quiet (req : IncomingMessage) (generateEtag : bool) (ev : Event)
    (st : ServerResponse * Piping) :
  (forall e, ev <> StreamError e) \/ promise (snd st) <> Pending
  \/ finished (snd st) = true ->
  deliver req generateEtag ev st = handle ev st.
Proof.
  intros Hq. unfold deliver.
  destruct (handle_promise ev st) as [Heq | (Hpend & [[Hev Hf] | (e & Hev & Hfin & Hr)])].
  - rewrite Heq. destruct (promise (snd st)); reflexivity.
  - rewrite Hpend, Hf. reflexivity.
  - exfalso. destruct Hq as [Hq | [Hq | Hq]];
      [exact (Hq e Hev) | exact (Hq Hpend) | congruence].
Qed.

Lemma handle_stays_quiet (ev : Event) (st : ServerResponse * Piping) :
  promise (snd st) <> Pending \/ finished (snd st) = true ->
  promise (snd (handle ev st)) <> Pending \/ finished (snd (handle ev st)) = true.
Proof.
  intros [Hq | Hq].
  - left. rewrite handle_settled by exact Hq. exact Hq.
  - right. exact (run_finished [ev] st Hq).
Qed.

Lemma deliver_all_quiet (req : IncomingMessage) (generateEtag : bool)
    (evs : list Event) (st : ServerResponse * Piping) :
  promise (snd st) <> Pending \/ finished (snd st) = true ->
  deliver_all req generateEtag evs st = run evs st.
Proof.
  revert st. induction evs as [|ev evs IH]; intros st Hq; [reflexivity|].
  unfold deliver_all in *. cbn [fold_left]. rewrite run_cons.
  rewrite deliver_quiet by (right; exact Hq).
  apply IH, handle_stays_quiet, Hq.
Qed.

Lemma deliver_all_no_error (req : IncomingMessage) (generateEtag : bool)
    (evs : list Event) (st : ServerResponse * Piping) :
  (forall e, ~ In (StreamError e) evs) ->
  deliver_all req generateEtag evs st = run evs st.
Proof.
  revert st. induction evs as [|ev evs IH]; intros st Hn; [reflexivity|].
  unfold deliver_all in *. cbn [fold_left]. rewrite run_cons.
  rewrite deliver_quiet.
  - apply IH. intros e Hin. apply (Hn e). right. exact Hin.
  - left. intros e ->. apply (Hn e). left. reflexivity.
Qed.

(** X16. A stream handed to [send]: as long as the stream emits no error,
    whatever else happens, and also from the completion of the response on,
    whatever errors the stream emits afterwards, the status code and the
    headers stay those the caller set: the 404 or 500 response is not
    sent. *)
Theorem send_stream_no_failure (req : IncomingMessage) (res : ServerResponse)
    (body : Body JsObject) (generateEtag : bool) (evs later : list Event) :
  Response.body_truthy body && Response.has_pipe body = true ->
  (forall e, ~ In (StreamError e) evs) ->
  let quiet := send_and_run req res body generateEtag evs in
  let completed :=
    send_and_run req res body generateEtag (evs ++ ResponseFinished :: later) in
  (statusCode quiet = statusCode res /\ headers quiet = headers res)
  /\ (statusCode completed = statusCode res /\ headers completed = headers res).
Proof.
  intros Hs Hn quiet completed. subst quiet completed. unfold send_and_run.
  rewrite (send_stream _ _ _ _ Hs).
  set (st0 := (res, {| promise := Pending; finished := false; piped := true;
                       onFinished_armed := true; destroys := 0 |})).
  split.
  - rewrite deliver_all_no_error by exact Hn. exact (run_head evs st0).
  - rewrite deliver_all_app, (deliver_all_no_error _ _ evs) by exact Hn.
    unfold deliver_all. cbn [fold_left].
    rewrite deliver_quiet by (left; discriminate).
    fold (deliver_all req generateEtag later (handle ResponseFinished (run evs st0))).
    assert (Hfin : finished (snd (handle ResponseFinished (run evs st0))) = true).
    { assert (Hi : piping_inv (snd (run (evs ++ [ResponseFinished]) st0))).
      { apply run_inv. unfold piping_inv. cbn. repeat split; try discriminate; lia. }
      destruct Hi as (_ & _ & _ & Hd).
      rewrite run_app in Hd. apply Hd.
      rewrite <- run_app. apply run_response_finished; [reflexivity|].
      apply in_or_app. right. left. reflexivity. }
    rewrite deliver_all_quiet by (right; exact Hfin).
    destruct (run_head later (handle ResponseFinished (run evs st0))) as [-> ->].
    destruct (handle_head ResponseFinished (run evs st0)) as [-> ->].
    exact (run_head evs st0).
Qed.

(** X17. The error response of [send] is sent once: after the first stream
    error, no later event, not even another error of another kind, changes
    the status code or the headers again. *)
Theorem send_stream_failure_once (req : IncomingMessage) (res : ServerResponse)
    (body : Body JsObject) (generateEtag : bool) (e : JsError) (later : list Event) :
  Response.body_truthy body && Response.has_pipe body = true ->
  let failed := send_and_run req res body generateEtag [StreamError e] in
  let res' := send_and_run req res body generateEtag (StreamError e :: later) in
  statusCode res' = statusCode failed
  /\ headers res' = headers failed
  /\ statusCode res' = (if bool_decide (code e = Some (js "ENOENT")) then 404 else 500).
Proof.
  intros Hs failed res'. subst failed res'. unfold send_and_run.
  rewrite (send_stream _ _ _ _ Hs).
  set (st0 := (res, {| promise := Pending; finished := false; piped := true;
                       onFinished_armed := true; destroys := 0 |})).
  unfold deliver_all. cbn [fold_left].
  fold (deliver_all req generateEtag later (deliver req generateEtag (StreamError e) st0)).
  assert (Hd : deliver req generateEtag (StreamError e) st0
               = (Response.send_catch req res generateEtag e,
                  {| promise := Rejected e; finished := true; piped := true;
                     onFinished_armed := true; destroys := 1 |})) by reflexivity.
  rewrite Hd.
  rewrite deliver_all_quiet by (left; discriminate).
  destruct (run_head later
              (Response.send_catch req res generateEtag e,
               {| promise := Rejected e; finished := true; piped := true;
                  onFinished_armed := true; destroys := 1 |})) as [-> ->].
  cbn [fst]. split; [reflexivity|]. split; [reflexivity|].
  unfold Response.send_catch.
  rewrite send_keeps_status; [reflexivity | discriminate | discriminate |].
  apply andb_false_r.
Qed.

Lemma run_destroys_disarmed (evs : list Event) (st : ServerResponse * Piping) :
  onFinished_armed (snd st) = false -> finished (snd st) = true ->
  destroys (snd (run evs st)) = destroys (snd st).
Proof.
  revert st. induction evs as [|ev evs IH]; intros st Ha Hf; [reflexivity|].
  rewrite run_cons, IH.
  - destruct st as [res p]. cbn [snd] in *. unfold handle.
    destruct (piped p); cbn [negb snd]; [|reflexivity].
    destruct ev as [c | | e |]; cbn [snd].
    + reflexivity.
    + unfold Response.stream_on_end, Response.resolve. destruct (promise p); reflexivity.
    + unfold Response.stream_on_error. rewrite Hf. reflexivity.
    + rewrite Ha. reflexivity.
  - apply handle_disarmed, Ha.
  - exact (run_finished [ev] st Hf).
Qed.

Lemma run_destroys_armed (evs : list Event) (res : ServerResponse) (p : Piping) :
  piped p = true -> onFinished_armed p = true ->
  destroys (snd (run evs (res, p)))
  = (destroys p + expected_destroys (finished p) evs)%nat.
Proof.
  revert res p. induction evs as [|ev evs IH]; intros res p Hp Ha;
    [cbn; lia|].
  rewrite run_cons. unfold handle at 1. rewrite Hp. cbn [negb].
  destruct ev as [c | | e |]; cbn [expected_destroys].
  - apply IH; assumption.
  - unfold Response.stream_on_end, Response.resolve.
    destruct (promise p); rewrite IH by assumption; reflexivity.
  - unfold Response.stream_on_error.
    destruct (finished p) eqn:Hf; [rewrite IH by assumption; rewrite Hf; reflexivity|].
    unfold Response.reject, Response.destroy, Response.mark_finished. cbn.
    destruct (promise p); rewrite IH by assumption; cbn; lia.
  - rewrite Ha. rewrite run_destroys_disarmed by reflexivity.
    unfold Response.stream_on_finished, Response.destroy, Response.mark_finished. cbn. lia.
Qed.

(** X18. The number of forcible releases of the stream, exactly: one when
    the response completes, and one for a stream error emitted before that
    completion; later errors and later events release nothing. *)
Theorem stream_release_count (res : ServerResponse) (body : Body JsObject)
    (evs : list Event) :
  Response.has_pipe body = true ->
  destroys (snd (run evs (Response.stream res body))) = expected_destroys false evs.
Proof.
  intros Hp. rewrite (stream_pipeable res body Hp).
  rewrite run_destroys_armed by reflexivity. reflexivity.
Qed.

End PipingMore.

Lemma stream_consumed_witness :
  let st := run [StreamData (CStr (js "a")); StreamData (CStr (js "b")); StreamEnd]
              (Response.stream (H := demo_platform) fresh_response (BObject true)) in
  output (fst st) = [OWrite (CStr (js "a")); OWrite (CStr (js "b")); OEnd None]
  /\ promise (snd st) = Fulfilled.
Proof.
  destruct (stream_consumed (H := demo_platform) fresh_response (BObject true)
              [CStr (js "a"); CStr (js "b")] eq_refl) as (Ho & _ & _ & Hp & _).
  exact (conj Ho Hp).
Defined.

Lemma send_stream_no_failure_witness :
  let completed :=
    send_and_run (H := demo_platform) GET fresh_response (BObject true) true
      ([StreamData (CStr (js "a"))] ++ ResponseFinished :: [StreamError enoent]) in
  statusCode completed = 200 /\ headers completed = ∅.
Proof.
  destruct (send_stream_no_failure (H := demo_platform) GET fresh_response (BObject true)
              true [StreamData (CStr (js "a"))] [StreamError enoent] eq_refl) as [_ Hc].
  - intros e [Hx | []]. discriminate.
  - exact Hc.
Defined.

Lemma send_stream_failure_once_witness :
  let res' :=
    send_and_run (H := demo_platform) GET fresh_response (BObject true) true
      [StreamError enoent;
       StreamError {| code := None; message := js "again" |}; ResponseFinished] in
  statusCode res' = 404.
Proof.
  destruct (send_stream_failure_once (H := demo_platform) GET fresh_response
              (BObject true) true enoent
              [StreamError {| code := None; message := js "again" |}; ResponseFinished]
              eq_refl) as (_ & _ & Hs).
  exact Hs.
Defined.

Lemma stream_release_count_witness :
  destroys (snd (run [StreamError enoent; StreamError enoent; ResponseFinished;
                      StreamError enoent; ResponseFinished]
                   (Response.stream (H := demo_platform) fresh_response (BObject true))))
  = 2%nat.
Proof.
  exact (stream_release_count (H := demo_platform) fresh_response (BObject true)
           [StreamError enoent; StreamError enoent; ResponseFinished;
            StreamError enoent; ResponseFinished] eq_refl).
Defined.

(** ** Headers of a sent body *)

Section SendHead.
Context `{Platform}.

Lemma classifier_type_truthy (body : Body JsObject) :
  body <> BUndefined ->
  exists t, Utils.type (Utils.returnContentAndType body) = Some t /\ str_truthy t = true.
Proof.
  intros Hu. destruct body; try contradiction; cbn [Utils.returnContentAndType Utils.type];
    try (eexists; split; reflexivity).
  destruct (html_re_test s); eexists; split; reflexivity.
Qed.

(** X19. After [send] of a body that is neither null, undefined nor a
    stream, under a status that carries a body, the response always has a
    Content-Type holding a truthy value: the one it held, or the type the
    classifier infers with [; charset=utf-8] appended. *)
Theorem send_sets_content_type (req : IncomingMessage) (res : ServerResponse)
    (body : Body JsObject) (generateEtag : bool) :
  Response.body_truthy body && Response.has_pipe body = false ->
  nullish body = false ->
  bodiless_status res = false ->
  let res' := fst (Response.send req res body generateEtag) in
  header_truthy (headers res' !! "content-type") = true
  /\ (header_truthy (headers res !! "content-type") = false ->
      exists t, Utils.type (Utils.returnContentAndType body) = Some t
                /\ headers res' !! "content-type" = Some (HStr (t ++ js "; charset=utf-8"))).
Proof.
  intros Hs Hn Hb res'. subst res'.
  rewrite (send_headers _ _ _ _ _ Hs) by discriminate.
  rewrite (prepare_content_type _ _ Hn Hb).
  destruct (classifier_type_truthy body) as (t & Ht & Htr).
  { apply nullish_spec in Hn. tauto. }
  rewrite Ht, Htr. cbn [andb].
  destruct (header_truthy (headers res !! "content-type")) eqn:Hp; cbn [negb].
  - split; [exact Hp | discriminate].
  - split; [|intros _; exists t; split; reflexivity].
    cbn [header_truthy]. apply str_truthy_app. reflexivity.
Qed.

(** X20. The method only decides the payload and the ETag: on a body that is
    not a stream, [send] leaves the same status code and, but for ETag, the
    same headers under HEAD as under any other method, Content-Type and
    Content-Length included. *)
Theorem send_head_same_headers (req req' : IncomingMessage) (res : ServerResponse)
    (body : Body JsObject) (generateEtag generateEtag' : bool) (k : string) :
  Response.body_truthy body && Response.has_pipe body = false ->
  k <> "etag" ->
  let res1 := fst (Response.send req res body generateEtag) in
  let res2 := fst (Response.send req' res body generateEtag') in
  headers res1 !! k = headers res2 !! k /\ statusCode res1 = statusCode res2.
Proof.
  intros Hs Hk res1 res2. subst res1 res2.
  rewrite !(send_headers _ _ _ _ _ Hs) by exact Hk.
  rewrite !(send_statusCode _ _ _ _ Hs). split; reflexivity.
Qed.

End SendHead.

Lemma send_sets_content_type_witness :
  headers (fst (Response.send (H := demo_platform) GET fresh_response (BBoolean false) true))
    !! "content-type" = Some (HStr (js "text/plain; charset=utf-8")).
Proof.
  destruct (send_sets_content_type (H := demo_platform) GET fresh_response
              (BBoolean false) true eq_refl eq_refl eq_refl) as [_ Hc].
  destruct (Hc eq_refl) as (t & Ht & Hh).
  injection Ht as <-. exact Hh.
Defined.

Lemma send_head_same_headers_witness :
  headers (fst (Response.send (H := demo_platform) HEAD fresh_response
                  (BBuffer [Byte.x68; Byte.x69]) true)) !! "content-length"
  = headers (fst (Response.send (H := demo_platform) GET fresh_response
                    (BBuffer [Byte.x68; Byte.x69]) true)) !! "content-length".
Proof.
  exact (proj1 (send_head_same_headers (H := demo_platform) HEAD GET fresh_response
                  (BBuffer [Byte.x68; Byte.x69]) true true "content-length"
                  eq_refl ltac:(discriminate))).
Defined.

(** ** Forcible release of the stream *)

Section PipingRelease.
Context `{Platform}.

(** C1, as amended. Within one stream-piping call the stream-error handler
    is guarded by the [finished] flag: with the flag set it changes nothing,
    with the flag unset it sets the flag and releases the stream once. The
    response-completion handler is not guarded: the first completion sets the
    flag and releases the stream whatever the flag says, and the handler runs
    that once only. So the number of releases is exactly one for the
    completion of the response plus one for a stream error emitted before it:
    at most twice in all, at most once as long as the response has not
    completed, none while the flag is unset, and at least once as soon as
    the response has completed, so that the stream is never left open when
    the client disconnects or the response ends before the stream is
    exhausted. *)
Theorem stream_release (res : ServerResponse) (body : Body JsObject)
    (evs : list Event) :
  Response.has_pipe body = true ->
  let st := run evs (Response.stream res body) in
  let p := snd st in
  destroys p = expected_destroys false evs
  /\ (destroys p <= 2)%nat
  /\ (~ In ResponseFinished evs -> (destroys p <= 1)%nat)
  /\ (In ResponseFinished evs -> finished p = true /\ (1 <= destroys p)%nat)
  /\ (finished p = false -> destroys p = 0%nat)
  /\ (forall e,
        let p' := snd (handle (StreamError e) st) in
        if finished p then p' = p
        else finished p' = true /\ destroys p' = S (destroys p))
  /\ (onFinished_armed p = true <-> ~ In ResponseFinished evs)
  /\ (let p' := snd (handle ResponseFinished st) in
      if onFinished_armed p
      then finished p' = true /\ destroys p' = S (destroys p)
           /\ onFinished_armed p' = false
      else p' = p).
Proof.
  intros Hp st p.
  assert (Hst0 : Response.stream res body
                 = (res, {| promise := Pending; finished := false; piped := true;
                            onFinished_armed := true; destroys := 0 |}))
    by exact (stream_pipeable res body Hp).
  assert (Hi : piping_inv p) by (apply run_inv, stream_inv, Hp).
  destruct Hi as (Hpi & Hf & Ha & Hd).
  assert (Harm : onFinished_armed p = true <-> ~ In ResponseFinished evs).
  { split.
    - intros Ht Hin.
      assert (Hx : onFinished_armed p = false).
      { apply run_response_finished; [|exact Hin]. rewrite Hst0. reflexivity. }
      congruence.
    - intros Hn. apply run_armed; [exact Hn|]. rewrite Hst0. reflexivity. }
  split; [|split; [|split; [|split; [|split; [|split; [|split]]]]]].
  - subst p st. rewrite Hst0. rewrite run_destroys_armed by reflexivity. reflexivity.
  - destruct (onFinished_armed p); [specialize (Ha eq_refl) | specialize (Hd eq_refl)]; lia.
  - intros Hn. apply Ha, Harm, Hn.
  - intros Hin.
    assert (Hx : onFinished_armed p = false).
    { destruct (onFinished_armed p) eqn:E; [|reflexivity].
      exfalso. exact (proj1 Harm eq_refl Hin). }
    destruct (Hd Hx) as [Hfin Hb]. split; [exact Hfin | lia].
  - intros Hfin. apply Hf, Hfin.
  - intros e p'. subst p'.
    replace st with (fst st, p) by (symmetry; apply surjective_pairing).
    unfold handle. rewrite Hpi. cbn [negb snd].
    unfold Response.stream_on_error.
    destruct (finished p) eqn:Hfin; [reflexivity|].
    unfold Response.reject, Response.destroy, Response.mark_finished. cbn.
    destruct (promise p); split; reflexivity.
  - exact Harm.
  - intros p'. subst p'.
    replace st with (fst st, p) by (symmetry; apply surjective_pairing).
    unfold handle. rewrite Hpi. cbn [negb].
    destruct (onFinished_armed p) eqn:E; [|reflexivity].
    cbn. repeat split; reflexivity.
Qed.

End PipingRelease.

Lemma stream_release_witness :
  let st := run [StreamError enoent; ResponseFinished]
              (Response.stream (H := demo_platform) fresh_response (BObject true)) in
  destroys (snd st) = 2%nat /\ finished (snd st) = true.
Proof.
  intros st.
  destruct (stream_release (H := demo_platform) fresh_response (BObject true)
              [StreamError enoent; ResponseFinished] eq_refl)
    as (Hcount & _ & _ & Hfin & _).
  destruct (Hfin (or_intror (or_introl eq_refl))) as [Hf _].
  exact (conj Hcount Hf).
Defined.

(** ** Requests of method HEAD *)

Section HeadRequests.
Context `{Platform}.

(** An event adds to the output at most a [write] of the pipe or an [end]
    without payload. *)
Lemma handle_output (ev : Event) (st : ServerResponse * Piping) :
  exists delta,
    output (fst (handle ev st)) = output (fst st) ++ delta
    /\ Forall (fun op => without_end_payload op = true) delta.
Proof.
  destruct st as [res p]. unfold handle.
  destruct (negb (piped p)); [exists []; split; [symmetry; apply app_nil_r | constructor]|].
  destruct ev as [c | | e |]; cbn [fst].
  - exists [OWrite c]. split; [reflexivity | repeat constructor].
  - exists [OEnd None]. split; [reflexivity | repeat constructor].
  - exists []. split; [symmetry; apply app_nil_r | constructor].
  - exists []. split; [|constructor].
    destruct (onFinished_armed p); symmetry; apply app_nil_r.
Qed.

Lemma deliver_output_head (req : IncomingMessage) (generateEtag : bool) (ev : Event)
    (st : ServerResponse * Piping) :
  method req = "HEAD" ->
  exists delta,
    output (fst (deliver req generateEtag ev st)) = output (fst st) ++ delta
    /\ Forall (fun op => without_end_payload op = true) delta.
Proof.
  intros Hm. destruct (handle_output ev st) as (delta & Ho & Hall).
  unfold deliver.
  destruct (promise (snd st)); try (exists delta; split; assumption).
  destruct (promise (snd (handle ev st))) as [| | error];
    try (exists delta; split; assumption).
  exists (delta ++ [OEnd None]). split.
  - cbn [fst]. unfold Response.send_catch. rewrite send_string_output, Hm.
    cbn [Response.status Response.set_statusCode output]. rewrite Ho.
    rewrite <- app_assoc. reflexivity.
  - apply Forall_app. split; [exact Hall | repeat constructor].
Qed.

Lemma deliver_all_output_head (req : IncomingMessage) (generateEtag : bool)
    (evs : list Event) (st : ServerResponse * Piping) :
  method req = "HEAD" ->
  exists new,
    output (fst (deliver_all req generateEtag evs st)) = output (fst st) ++ new
    /\ Forall (fun op => without_end_payload op = true) new.
Proof.
  intros Hm. revert st. induction evs as [|ev evs IH]; intros st.
  - exists []. split; [symmetry; apply app_nil_r | constructor].
  - unfold deliver_all in *. cbn [fold_left].
    destruct (deliver_output_head req generateEtag ev st Hm) as (d1 & Ho1 & Ha1).
    destruct (IH (deliver req generateEtag ev st)) as (d2 & Ho2 & Ha2).
    exists (d1 ++ d2). split.
    + rewrite Ho2, Ho1, <- app_assoc. reflexivity.
    + apply Forall_app. split; assumption.
Qed.

(** C8. For every HEAD request, whatever the body and whatever follows,
    [send] puts no content byte on the response. On a body that is not a
    stream it ends the response with no body, even when preparation produced
    content. On a stream body it pipes the stream; every [end] call made on
    the response, the one of the pipe and the one that answers a failure of
    the stream, carries no payload, and what the pipe hands to [write] is
    not sent, for the platform sends no body in answer to a HEAD request. *)
Theorem send_head_no_content (req : IncomingMessage) (res : ServerResponse)
    (body : Body JsObject) (generateEtag : bool) (evs : list Event) :
  method req = "HEAD" ->
  let res' := send_and_run req res body generateEtag evs in
  exists new,
    output res' = output res ++ new
    /\ Forall (fun op => without_end_payload op = true) new
    /\ (Response.body_truthy body && Response.has_pipe body = false ->
        new = [OEnd None] /\ content_bytes new = 0)
    /\ wire_bytes req new = 0.
Proof.
  intros Hm res'. subst res'. unfold send_and_run.
  assert (Hw : forall new, wire_bytes req new = 0).
  { intros new. unfold wire_bytes. rewrite Hm. reflexivity. }
  destruct (Response.body_truthy body && Response.has_pipe body) eqn:Hs.
  - rewrite (send_stream _ _ _ _ Hs).
    destruct (deliver_all_output_head req generateEtag evs
                (res, {| promise := Pending; finished := false; piped := true;
                         onFinished_armed := true; destroys := 0 |}) Hm)
      as (new & Ho & Hall).
    exists new. split; [exact Ho|]. split; [exact Hall|].
    split; [discriminate | apply Hw].
  - exists [OEnd None].
    assert (Ho : output (fst (Response.send req res body generateEtag))
                 = output res ++ [OEnd None]).
    { rewrite (send_not_stream _ _ _ _ Hs), Hm. cbn zeta.
      replace (String.eqb "HEAD" "HEAD") with true by reflexivity.
      destruct (snd (Response.prepare res body));
        cbn [fst Response.end_ Response.log_output output];
        rewrite prepare_output; reflexivity. }
    assert (Hn : snd (Response.send req res body generateEtag) = None).
    { rewrite (send_not_stream _ _ _ _ Hs), Hm. cbn zeta.
      replace (String.eqb "HEAD" "HEAD") with true by reflexivity.
      destruct (snd (Response.prepare res body)); reflexivity. }
    destruct (Response.send req res body generateEtag) as [r o]. cbn [fst snd] in *.
    subst o. split; [exact Ho|]. split; [repeat constructor|].
    split; [intros _; split; reflexivity | apply Hw].
Qed.

End HeadRequests.

Lemma send_head_no_content_witness :
  exists new,
    output (send_and_run (H := demo_platform) HEAD fresh_response
              (BBuffer [Byte.x68; Byte.x69]) true [])
    = output fresh_response ++ new
    /\ new = [OEnd None] /\ wire_bytes HEAD new = 0.
Proof.
  destruct (send_head_no_content (H := demo_platform) HEAD fresh_response
              (BBuffer [Byte.x68; Byte.x69]) true [] eq_refl)
    as (new & Ho & _ & Hn & Hw).
  exists new. split; [exact Ho|]. split; [exact (proj1 (Hn eq_refl)) | exact Hw].
Defined.

(** A stream sent in answer to a HEAD request: the library pipes it as under
    any other method, so that the pipe's [write] call is made, with a payload
    the platform does not send, and the response is ended without payload. *)
Example send_head_stream_piped :
  let chunk := CStr (js "hello world") in
  let res' :=
    send_and_run (H := demo_platform) HEAD fresh_response (BObject true) true
      [StreamData chunk; StreamEnd] in
  output res' = [OWrite chunk; OEnd None]
  /\ wire_bytes HEAD (output res') = 0
  /\ wire_bytes GET (output res') = 11.
Proof. vm_compute. repeat split. Qed.
